(** * Oni: the Neovim adapter ([browser/src/NeovimInstance.ts])

    A shallow embedding of [NeovimInstance]: the notification handler that
    turns Neovim's [redraw] batches into UI actions, the forwarding of
    [oni_plugin_notify], and the geometry negotiation ([setFont], [resize],
    [_resizeInternal]) that goes through the start-up promise.

    JavaScript values are dynamically typed, so the payload of a
    notification is a [Value]; a property read on [undefined] or [null]
    raises a [TypeError], which is modelled by [Throw].  Every observable
    call the adapter makes (an emitted event, a console message, a call on
    the Neovim client or on the plugin manager) is recorded, in order, in a
    trace of [Effect]s. *)

From Stdlib Require Import List String Ascii ZArith Bool Lia DecimalString.
Import ListNotations.
Local Open Scope string_scope.
Local Open Scope list_scope.
Local Open Scope Z_scope.

(** ** JavaScript values *)

(** The values a msgpack payload decodes to, together with [undefined]
    (what a missing element reads as) and the built-in methods that a read
    such as ["x".bold] or [[].reverse] finds on a prototype.  Numbers of
    the payload are never computed with; they are kept as integers.  A
    string is the sequence of its code units, one [ascii] each (code
    units below 256).  An object is a plain one, with the listed
    properties of its own and [Object.prototype] behind them.  A payload
    decoded from msgpack holds no function. *)
#[warnings="-register-all"]
Inductive Value : Type :=
| VUndefined
| VNull
| VBoolean (b : bool)
| VNumber (n : Z)
| VString (s : string)
| VArray (elements : list Value)
| VObject (fields : list (string * Value))
| VFunction (name : string).

Inductive JsError : Type :=
| TypeError.

(** Outcome of evaluating an expression: a value, or a raised error. *)
Inductive Completion (A : Type) : Type :=
| Normal (a : A)
| Throw (e : JsError).

Arguments Normal {A} a.
Arguments Throw {A} e.

Definition isNullish (v : Value) : bool :=
  match v with
  | VUndefined | VNull => true
  | _ => false
  end.

(** Own property of an object literal; the first binding of a key is the
    one the object holds. *)
Fixpoint lookupField (key : string) (fields : list (string * Value)) : Value :=
  match fields with
  | [] => VUndefined
  | (k, v) :: rest => if String.eqb k key then v else lookupField key rest
  end.

Definition indexKey (i : nat) : string :=
  NilEmpty.string_of_uint (Nat.to_uint i).

(** [v[i]] for a literal index [i]. *)
Definition getIndex (v : Value) (i : nat) : Completion Value :=
  match v with
  | VUndefined | VNull => Throw TypeError
  | VArray l => Normal (nth i l VUndefined)
  | VString s =>
      Normal match String.get i s with
             | Some c => VString (String c EmptyString)
             | None => VUndefined
             end
  | VObject fs => Normal (lookupField (indexKey i) fs)
  | VBoolean _ | VNumber _ | VFunction _ => Normal VUndefined
  end.

(** [v.name].  Of the names the adapter reads ([bold], [italic],
    [reverse], [underline], [undercurl], [foreground], [background]) the
    prototypes define [String.prototype.bold] and
    [Array.prototype.reverse]; [Object.prototype] defines none. *)
Definition getProp (v : Value) (name : string) : Completion Value :=
  match v with
  | VUndefined | VNull => Throw TypeError
  | VObject fs => Normal (lookupField name fs)
  | VString _ =>
      Normal (if String.eqb name "bold" then VFunction "bold" else VUndefined)
  | VArray _ =>
      Normal (if String.eqb name "reverse" then VFunction "reverse" else VUndefined)
  | VBoolean _ | VNumber _ | VFunction _ => Normal VUndefined
  end.

(** [!!v]. *)
Definition toBoolean (v : Value) : bool :=
  match v with
  | VUndefined | VNull => false
  | VBoolean b => b
  | VNumber n => negb (n =? 0)
  | VString s => negb (String.eqb s "")
  | VArray _ | VObject _ | VFunction _ => true
  end.

(** [v === "literal"]. *)
Definition strictEqString (v : Value) (literal : string) : bool :=
  match v with
  | VString s => String.eqb s literal
  | _ => false
  end.

(** [l[i]] on what is known to be an array. *)
Definition element (l : list Value) (i : nat) : Value := nth i l VUndefined.

(** [a.shift()]: the removed head and the array as it is afterwards.  A
    value that is not an array has no callable [shift]. *)
Definition shift (a : Value) : Completion (Value * list Value) :=
  match a with
  | VArray [] => Normal (VUndefined, [])
  | VArray (x :: rest) => Normal (x, rest)
  | _ => Throw TypeError
  end.

(** ** Actions *)

(** The action creators live in [./actions].  An action is represented
    by the creator call that builds it, with its arguments in call
    order. *)
Module Actions.

Inductive Action : Type :=
| createCursorGotoAction (arg0 arg1 : Value)
| put (characters : list Value)
| setScrollRegion (arg0 arg1 arg2 arg3 : Value)
| scroll (arg0 : Value)
| setHighlight (bold italic reverse underline undercurl : bool)
               (foreground background : Value)
| resize (arg0 arg1 : Value)
| clearToEndOfLine
| clear
| updateBackground (arg0 : Value)
| updateForeground (arg0 : Value)
| changeMode (arg0 : Value)
| setFont (fontFamily fontSize : string) (width height : Z).

End Actions.

(** ** Numbers computed by the adapter *)

(** The result of [Math.floor(x / y)]: dividing by zero gives an infinity
    or [NaN], and so does dividing by a metric that is still [undefined]. *)
Inductive JsNumber : Type :=
| Finite (z : Z)
| PosInfinity
| NegInfinity
| NaN.

(** ** Effects *)

Inductive Effect : Type :=
| EmitAction (action : Actions.Action)                  (* this.emit("action", action) *)
| EmitModeChange (newMode : Value)              (* this.emit("mode-change", newMode) *)
| ConsoleLog (message : string)
| ConsoleWarn (message : string)
| ConsoleWarnConcat (prefix : string) (operand : Value)   (* console.warn(prefix + operand) *)
| NvCommand (command : string)                  (* nv.command(command) *)
| NvInput (inputString : string)                (* this._neovim.input(inputString) *)
| NvOn (event : string)                         (* this._neovim.on(event, handler) *)
| UiAttach (columns rows : Z) (enable : bool)   (* this._neovim.uiAttach(...) *)
| UiTryResize (columns rows : JsNumber)         (* this._neovim.uiTryResize(...) *)
| PluginHandleNotification (method args : Value)
| PluginGenerateInitVim
| PluginStartPlugins
| StartNeovim                                  (* startNeovim(initVimPath, files) *)
| AppQuit.                                     (* remote.app.quit() *)

(** ** The effect monad

    A computation performs effects and then completes normally or throws;
    the effects performed before a throw stay performed. *)
Definition M (A : Type) : Type := (list Effect * Completion A)%type.

Definition ret {A} (a : A) : M A := ([], Normal a).

Definition bind {A B} (m : M A) (k : A -> M B) : M B :=
  match m with
  | (tr, Normal a) => let (tr', r) := k a in (tr ++ tr', r)
  | (tr, Throw e) => (tr, Throw e)
  end.

Definition eval {A} (c : Completion A) : M A := ([], c).

Definition perform (e : Effect) : M unit := ([e], Normal tt).

Definition effects {A} (m : M A) : list Effect := fst m.

Definition completion {A} (m : M A) : Completion A := snd m.

Notation "x <- m ;; k" := (bind m (fun x => k))
  (at level 61, m at next level, right associativity).
Notation "m ;;; k" := (bind m (fun _ => k))
  (at level 61, right associativity).

(** [array.forEach(callback)]. *)
Fixpoint forEach (callback : Value -> M unit) (array : list Value) : M unit :=
  match array with
  | [] => ret tt
  | x :: rest => callback x ;;; forEach callback rest
  end.

(** [array.map(callback)] for a callback that may throw. *)
Fixpoint mapArray (callback : Value -> Completion Value) (array : list Value)
  : Completion (list Value) :=
  match array with
  | [] => Normal []
  | x :: rest =>
      match callback x with
      | Throw e => Throw e
      | Normal y =>
          match mapArray callback rest with
          | Throw e => Throw e
          | Normal ys => Normal (y :: ys)
          end
      end
  end.

(** ** Conversion to a string *)

Definition hasField (key : string) (fields : list (string * Value)) : bool :=
  existsb (fun binding => String.eqb (fst binding) key) fields.

Definition isFunction (v : Value) : bool :=
  match v with
  | VFunction _ => true
  | _ => false
  end.

(** Whether [String(v)] completes.  An array is joined, which converts
    each of its elements; an object goes through its [toString]: the
    inherited one answers, an own property of that name that is not
    callable leaves nothing to call, and the conversion raises a
    [TypeError].  (An own [toString] that is a function would be called;
    no payload holds one, and the conversion is then taken to raise.) *)
Fixpoint toStringCompletes (v : Value) : bool :=
  match v with
  | VArray elements =>
      (fix all (l : list Value) : bool :=
         match l with
         | [] => true
         | x :: rest => toStringCompletes x && all rest
         end) elements
  | VObject fields => negb (hasField "toString" fields)
  | _ => true
  end.

(** Whether ["text" + v] completes.  The operand is first made a
    primitive, for an object through [valueOf] and then [toString]: the
    inherited [valueOf] returns the object itself, so it comes down to
    [toString].  (An own [valueOf] that is a function would be called; no
    payload holds one, and the conversion is then taken to raise.) *)
Definition concatCompletes (v : Value) : bool :=
  match v with
  | VObject fields =>
      negb (isFunction (lookupField "valueOf" fields))
      && negb (hasField "toString" fields)
  | _ => toStringCompletes v
  end.

(** ["text" + v], for what it can raise. *)
Definition concat (v : Value) : Completion unit :=
  if concatCompletes v then Normal tt else Throw TypeError.

(** ** The redraw handler *)

(** [l[i]] for a computed index, which may be negative. *)
Definition elementAt (l : list Value) (i : Z) : Value :=
  if i <? 0 then VUndefined else nth (Z.to_nat i) l VUndefined.

(** The callback that [_handleNotification] passes to [args.forEach]. *)
Definition redrawCallback (a : Value) : M unit :=
  command <- eval (getIndex a 0) ;;
  shifted <- eval (shift a) ;;
  let a := snd shifted in
  if strictEqString command "cursor_goto" then
    arg0 <- eval (getIndex (element a 0) 0) ;;
    arg1 <- eval (getIndex (element a 0) 1) ;;
    perform (EmitAction (Actions.createCursorGotoAction arg0 arg1))
  else if strictEqString command "put" then
    charactersToPut <- eval (mapArray (fun v => getIndex v 0) a) ;;
    perform (EmitAction (Actions.put charactersToPut))
  else if strictEqString command "set_scroll_region" then
    let param := element a 0 in
    arg0 <- eval (getIndex param 0) ;;
    arg1 <- eval (getIndex param 1) ;;
    arg2 <- eval (getIndex param 2) ;;
    arg3 <- eval (getIndex param 3) ;;
    perform (EmitAction (Actions.setScrollRegion arg0 arg1 arg2 arg3))
  else if strictEqString command "scroll" then
    arg0 <- eval (getIndex (element a 0) 0) ;;
    perform (EmitAction (Actions.scroll arg0))
  else if strictEqString command "highlight_set" then
    let count := Z.of_nat (List.length a) in
    highlightInfo <- eval (getIndex (elementAt a (count - 1)) 0) ;;
    bold <- eval (getProp highlightInfo "bold") ;;
    italic <- eval (getProp highlightInfo "italic") ;;
    reverse <- eval (getProp highlightInfo "reverse") ;;
    underline <- eval (getProp highlightInfo "underline") ;;
    undercurl <- eval (getProp highlightInfo "undercurl") ;;
    foreground <- eval (getProp highlightInfo "foreground") ;;
    background <- eval (getProp highlightInfo "background") ;;
    perform (EmitAction (Actions.setHighlight
                           (toBoolean bold) (toBoolean italic) (toBoolean reverse)
                           (toBoolean underline) (toBoolean undercurl)
                           foreground background))
  else if strictEqString command "resize" then
    arg0 <- eval (getIndex (element a 0) 0) ;;
    arg1 <- eval (getIndex (element a 0) 1) ;;
    perform (EmitAction (Actions.resize arg0 arg1))
  else if strictEqString command "eol_clear" then
    perform (EmitAction Actions.clearToEndOfLine)
  else if strictEqString command "clear" then
    perform (EmitAction Actions.clear)
  else if strictEqString command "mouse_on" then
    ret tt
  else if strictEqString command "update_bg" then
    arg0 <- eval (getIndex (element a 0) 0) ;;
    perform (EmitAction (Actions.updateBackground arg0))
  else if strictEqString command "update_fg" then
    arg0 <- eval (getIndex (element a 0) 0) ;;
    perform (EmitAction (Actions.updateForeground arg0))
  else if strictEqString command "mode_change" then
    newMode <- eval (getIndex (element a 0) 0) ;;
    perform (EmitAction (Actions.changeMode newMode)) ;;;
    perform (EmitModeChange newMode)
  else
    eval (concat command) ;;;
    perform (ConsoleWarnConcat "Unhandled command: " command).

(** [_handleNotification(method, args)]: [args.forEach] exists on arrays
    only. *)
Definition _handleNotification (method : string) (args : Value) : M unit :=
  match args with
  | VArray batches => forEach redrawCallback batches
  | _ => eval (Throw TypeError)
  end.

(** ** The notification listener *)

Fixpoint updateField (key : string) (new : Value) (fields : list (string * Value))
  : list (string * Value) :=
  match fields with
  | [] => []
  | (k, v) :: rest =>
      if String.eqb k key then (k, new) :: rest
      else (k, v) :: updateField key new rest
  end.

(** [pluginArgs] aliases [args[0]], so [pluginArgs.shift()] changes the
    payload in place: [withIndex0 args new] is [args] as seen afterwards,
    once its element 0 has become [new]. *)
Definition withIndex0 (args new : Value) : Value :=
  match args with
  | VArray (_ :: rest) => VArray (new :: rest)
  | VObject fs => VObject (updateField (indexKey 0) new fs)
  | _ => args
  end.

(** The listener registered with [this._neovim.on("notification", ...)]. *)
Definition onNotification (method : string) (args : Value) : M unit :=
  if String.eqb method "redraw" then
    _handleNotification method args
  else if String.eqb method "oni_plugin_notify" then
    pluginArgs <- eval (getIndex args 0) ;;
    shifted <- eval (shift pluginArgs) ;;
    let pluginMethod := fst shifted in
    perform (PluginHandleNotification pluginMethod
               (withIndex0 args (VArray (snd shifted))))
  else
    perform (ConsoleWarnConcat "Unknown notification: " (VString method)).

(** The listener registered with [this._neovim.on("request", ...)]. *)
Definition onRequest (method : string) : M unit :=
  perform (ConsoleWarnConcat "Unhandled request: " (VString method)).

(** The listener registered with [this._neovim.on("disconnect", ...)]. *)
Definition onDisconnect : M unit := perform AppQuit.

(** ** Configuration *)

(** [./Config] is the application's configuration store.  The adapter
    reads three of its settings; the configuration in force is an argument
    of every operation that reads it.  [debug_fixedSize] is [None] when
    [Config.hasValue("debug.fixedSize")] is false. *)
Module Config.

Record FixedSize : Type := mkFixedSize {
  rows : JsNumber;
  columns : JsNumber
}.

Record Values : Type := mkValues {
  editor_fontFamily : string;
  editor_fontSize : string;
  debug_fixedSize : option FixedSize
}.

End Config.

(** ** The start-up promise *)

Inductive PromiseState : Type :=
| Pending
| Fulfilled
| Rejected.

(** A callback registered with [this._initPromise.then]: the closure of
    [_resizeInternal], which has captured [columns] and [rows].  (The
    reply callback of [uiTryResize] only logs an error; replies are not
    modelled.) *)
Inductive Reaction : Type :=
| TryResize (columns rows : JsNumber).

Record Promise : Type := mkPromise {
  state : PromiseState;
  reactions : list Reaction          (* registered and not yet run, oldest first *)
}.

Definition then_ (onFulfilled : Reaction) (p : Promise) : Promise :=
  mkPromise (state p) (reactions p ++ [onFulfilled]).

Definition runReaction (r : Reaction) : Effect :=
  match r with
  | TryResize columns rows => UiTryResize columns rows
  end.

(** ** The adapter *)

Record FontMeasurement : Type := mkFontMeasurement {
  width : Z;
  height : Z
}.

Record NeovimInstance : Type := mkNeovimInstance {
  _neovim : bool;                    (* whether the client has been assigned *)
  _initPromise : Promise;
  _fontFamily : string;
  _fontSize : string;
  _fontWidthInPixels : option Z;     (* [None]: still undefined *)
  _fontHeightInPixels : option Z;
  _lastHeightInPixels : Z;
  _lastWidthInPixels : Z
}.

(** [Math.floor(x / y)].  Pixel sizes and cell metrics are kept as
    integers, on which it is the floor division; a zero divisor gives an
    infinity or [NaN], and so does a metric that is still [undefined]. *)
Definition floorDiv (x : Z) (y : option Z) : JsNumber :=
  match y with
  | None => NaN
  | Some d =>
      if d =? 0 then
        if x =? 0 then NaN else if 0 <? x then PosInfinity else NegInfinity
      else Finite (x / d)
  end.

(** ** Calls passed through to the client *)

(** What [input] and [command] ask of the Neovim client. *)
Inductive ClientRequest : Type :=
| ClientInput (inputString : string)          (* this._neovim.input(inputString) *)
| ClientCommand (commandString : string).     (* this._neovim.command(commandString) *)

(** [input(inputString)]: a method call on [this._neovim], which is
    [undefined] until Neovim has started. *)
Definition input (inputString : string) (self : NeovimInstance)
  : Completion ClientRequest :=
  if _neovim self then Normal (ClientInput inputString) else Throw TypeError.

(** [command(commandString)]. *)
Definition command (commandString : string) (self : NeovimInstance)
  : Completion ClientRequest :=
  if _neovim self then Normal (ClientCommand commandString) else Throw TypeError.

Definition asClientCall (request : ClientRequest) : Effect :=
  match request with
  | ClientInput inputString => NvInput inputString
  | ClientCommand commandString => NvCommand commandString
  end.

Section Adapter.

(** [measureFont] of [./measureFont] measures a glyph cell in the
    browser; the adapter is parameterized by it. *)
Variable measureFont : string -> string -> FontMeasurement.

Definition _resizeInternal (cfg : Config.Values) (rows columns : JsNumber)
           (self : NeovimInstance) : list Effect * NeovimInstance :=
  let '(rows, columns, warned) :=
    match Config.debug_fixedSize cfg with
    | Some fixedSize =>
        (Config.rows fixedSize, Config.columns fixedSize,
         [ConsoleWarn "Overriding screen size based on debug.fixedSize"])
    | None => (rows, columns, [])
    end in
  (warned,
   mkNeovimInstance (_neovim self)
     (then_ (TryResize columns rows) (_initPromise self))
     (_fontFamily self) (_fontSize self)
     (_fontWidthInPixels self) (_fontHeightInPixels self)
     (_lastHeightInPixels self) (_lastWidthInPixels self)).

Definition resize (cfg : Config.Values) (widthInPixels heightInPixels : Z)
           (self : NeovimInstance) : list Effect * NeovimInstance :=
  let self :=
    mkNeovimInstance (_neovim self) (_initPromise self)
      (_fontFamily self) (_fontSize self)
      (_fontWidthInPixels self) (_fontHeightInPixels self)
      heightInPixels widthInPixels in
  let rows := floorDiv heightInPixels (_fontHeightInPixels self) in
  let cols := floorDiv widthInPixels (_fontWidthInPixels self) in
  _resizeInternal cfg rows cols self.

Definition setFont (cfg : Config.Values) (fontFamily fontSize : string)
           (self : NeovimInstance) : list Effect * NeovimInstance :=
  let measured := measureFont fontFamily fontSize in
  let self :=
    mkNeovimInstance (_neovim self) (_initPromise self)
      fontFamily fontSize
      (Some (width measured)) (Some (height measured))
      (_lastHeightInPixels self) (_lastWidthInPixels self) in
  let (tr, self) :=
    resize cfg (_lastWidthInPixels self) (_lastHeightInPixels self) self in
  (EmitAction (Actions.setFont fontFamily fontSize
                 (width measured) (height measured)) :: tr,
   self).

(** [new NeovimInstance(pluginManager, widthInPixels, heightInPixels)]:
    the synchronous part, up to the return of the constructor. *)
Definition constructor (cfg : Config.Values) (widthInPixels heightInPixels : Z)
  : list Effect * NeovimInstance :=
  let self :=
    mkNeovimInstance false (mkPromise Pending [])
      (Config.editor_fontFamily cfg) (Config.editor_fontSize cfg)
      None None heightInPixels widthInPixels in
  let (tr, self) := setFont cfg "Consolas" "14px" self in
  (PluginGenerateInitVim :: StartNeovim :: tr, self).

(** The handler chained on [startNeovim(...)], run when Neovim has
    started; [_initPromise] is fulfilled when it returns. *)
Definition onStarted (self : NeovimInstance) : list Effect * NeovimInstance :=
  ([ConsoleLog "NevoimInstance: Neovim started";
    NvCommand "colorscheme onedark";
    NvOn "notification";
    NvOn "request";
    NvOn "disconnect";
    UiAttach 80 40 true],
   mkNeovimInstance true
     (mkPromise Fulfilled (reactions (_initPromise self)))
     (_fontFamily self) (_fontSize self)
     (_fontWidthInPixels self) (_fontHeightInPixels self)
     (_lastHeightInPixels self) (_lastWidthInPixels self)).

(** [startNeovim(...)] failed: [_initPromise] is rejected and its
    reactions never run. *)
Definition onStartFailed (self : NeovimInstance) : NeovimInstance :=
  mkNeovimInstance (_neovim self)
    (mkPromise Rejected (reactions (_initPromise self)))
    (_fontFamily self) (_fontSize self)
    (_fontWidthInPixels self) (_fontHeightInPixels self)
    (_lastHeightInPixels self) (_lastWidthInPixels self).

(** The callback of [uiAttach]. *)
Definition onAttached : list Effect :=
  [ConsoleLog "Attach success"; PluginStartPlugins].

(** The reactions of a fulfilled [_initPromise] run, oldest first. *)
Definition runReactions (self : NeovimInstance) : list Effect * NeovimInstance :=
  match state (_initPromise self) with
  | Fulfilled =>
      (map runReaction (reactions (_initPromise self)),
       mkNeovimInstance (_neovim self) (mkPromise Fulfilled [])
         (_fontFamily self) (_fontSize self)
         (_fontWidthInPixels self) (_fontHeightInPixels self)
         (_lastHeightInPixels self) (_lastWidthInPixels self))
  | _ => ([], self)
  end.

(** *** The event loop

    What happens to a constructed adapter, one turn of the event loop at
    a time. *)
Inductive Turn : Type :=
| CallResize (widthInPixels heightInPixels : Z)
| CallSetFont (fontFamily fontSize : string)
| NeovimStarted
| NeovimFailedToStart
| NeovimAttached
| InitReactions
| Notification (method : string) (args : Value)
| CallInput (inputString : string)
| CallCommand (commandString : string).

Definition turn (cfg : Config.Values) (t : Turn) (self : NeovimInstance)
  : list Effect * NeovimInstance :=
  match t with
  | CallResize w h => resize cfg w h self
  | CallSetFont family size => setFont cfg family size self
  | NeovimStarted =>
      match state (_initPromise self) with
      | Pending => onStarted self
      | _ => ([], self)
      end
  | NeovimFailedToStart =>
      match state (_initPromise self) with
      | Pending => ([], onStartFailed self)
      | _ => ([], self)
      end
  | NeovimAttached => if _neovim self then (onAttached, self) else ([], self)
  | InitReactions => runReactions self
  | Notification method args =>
      if _neovim self then (effects (onNotification method args), self)
      else ([], self)
  | CallInput inputString =>
      match input inputString self with
      | Normal request => ([asClientCall request], self)
      | Throw _ => ([], self)
      end
  | CallCommand commandString =>
      match command commandString self with
      | Normal request => ([asClientCall request], self)
      | Throw _ => ([], self)
      end
  end.

Fixpoint turns (cfg : Config.Values) (ts : list Turn) (self : NeovimInstance)
  : list Effect * NeovimInstance :=
  match ts with
  | [] => ([], self)
  | t :: rest =>
      let (tr, self) := turn cfg t self in
      let (tr', self) := turns cfg rest self in
      (tr ++ tr', self)
  end.

End Adapter.

(** ** Observations on a trace *)

(** The actions published on the ["action"] event, in emission order. *)
Fixpoint emittedActions (tr : list Effect) : list Actions.Action :=
  match tr with
  | [] => []
  | EmitAction a :: rest => a :: emittedActions rest
  | _ :: rest => emittedActions rest
  end.

(** The resize requests sent to Neovim, as (columns, rows), in order. *)
Fixpoint resizeRequests (tr : list Effect) : list (JsNumber * JsNumber) :=
  match tr with
  | [] => []
  | UiTryResize columns rows :: rest => (columns, rows) :: resizeRequests rest
  | _ :: rest => resizeRequests rest
  end.

(** The attach handshakes sent to Neovim, in order. *)
Fixpoint attachRequests (tr : list Effect) : list (Z * Z * bool) :=
  match tr with
  | [] => []
  | UiAttach columns rows enable :: rest =>
      (columns, rows, enable) :: attachRequests rest
  | _ :: rest => attachRequests rest
  end.

(** Calls made on the Neovim client. *)
Definition isClientCall (e : Effect) : bool :=
  match e with
  | NvCommand _ | NvInput _ | NvOn _ | UiAttach _ _ _ | UiTryResize _ _ => true
  | _ => false
  end.

(** The command names that have a branch of their own in
    [_handleNotification]. *)
Definition handledCommands : list string :=
  ["cursor_goto"; "put"; "set_scroll_region"; "scroll"; "highlight_set";
   "resize"; "eol_clear"; "clear"; "mouse_on"; "update_bg"; "update_fg";
   "mode_change"].

Definition isHandled (command : Value) : bool :=
  existsb (strictEqString command) handledCommands.

Definition valueOf (c : Completion Value) : Value :=
  match c with
  | Normal v => v
  | Throw _ => VUndefined
  end.

(** ** The specification's vocabulary *)

(** The decoded primitives of the specification's data model.  An
    unrecognized name decodes to no command. *)
Inductive ScreenCommand : Type :=
| CursorGoto (row col : Value)
| Put (characters : list Value)
| SetScrollRegion (top bottom left right : Value)
| Scroll (count : Value)
| SetHighlight (bold italic reverse underline undercurl : bool)
               (foreground background : Value)
| Resize (columns rows : Value)
| ClearToEndOfLine
| Clear
| UpdateForeground (color : Value)
| UpdateBackground (color : Value)
| ModeChange (modeName : Value).

Definition andThen {A B} (c : Completion A) (k : A -> Completion B)
  : Completion B :=
  match c with
  | Normal a => k a
  | Throw e => Throw e
  end.

(** The per-command decoding rules of the specification, for a command
    name followed by its parameter tuples.  A field is read as JavaScript
    reads it: a missing field is [undefined], a missing tuple cannot be
    read.  [None]: the name decodes to no command (a no-op or an
    unrecognized name). *)
Definition decodeNamed (name : Value) (tuples : list Value)
  : Completion (option ScreenCommand) :=
  let first := element tuples 0 in
  if strictEqString name "cursor_goto" then
    andThen (getIndex first 0) (fun row =>
    andThen (getIndex first 1) (fun col =>
    Normal (Some (CursorGoto row col))))
  else if strictEqString name "put" then
    andThen (mapArray (fun tuple => getIndex tuple 0) tuples) (fun cs =>
    Normal (Some (Put cs)))
  else if strictEqString name "set_scroll_region" then
    andThen (getIndex first 0) (fun top =>
    andThen (getIndex first 1) (fun bottom =>
    andThen (getIndex first 2) (fun left =>
    andThen (getIndex first 3) (fun right =>
    Normal (Some (SetScrollRegion top bottom left right))))))
  else if strictEqString name "scroll" then
    andThen (getIndex first 0) (fun count => Normal (Some (Scroll count)))
  else if strictEqString name "highlight_set" then
    andThen (getIndex (last tuples VUndefined) 0) (fun info =>
    andThen (getProp info "bold") (fun bold =>
    andThen (getProp info "italic") (fun italic =>
    andThen (getProp info "reverse") (fun reverse =>
    andThen (getProp info "underline") (fun underline =>
    andThen (getProp info "undercurl") (fun undercurl =>
    andThen (getProp info "foreground") (fun foreground =>
    andThen (getProp info "background") (fun background =>
    Normal (Some (SetHighlight (toBoolean bold) (toBoolean italic)
                    (toBoolean reverse) (toBoolean underline)
                    (toBoolean undercurl) foreground background))))))))))
  else if strictEqString name "resize" then
    andThen (getIndex first 0) (fun columns =>
    andThen (getIndex first 1) (fun rows =>
    Normal (Some (Resize columns rows))))
  else if strictEqString name "eol_clear" then Normal (Some ClearToEndOfLine)
  else if strictEqString name "clear" then Normal (Some Clear)
  else if strictEqString name "update_fg" then
    andThen (getIndex first 0) (fun color => Normal (Some (UpdateForeground color)))
  else if strictEqString name "update_bg" then
    andThen (getIndex first 0) (fun color => Normal (Some (UpdateBackground color)))
  else if strictEqString name "mode_change" then
    andThen (getIndex first 0) (fun modeName => Normal (Some (ModeChange modeName)))
  else Normal None.

Definition decodeCommand (batch : Value) : Completion (option ScreenCommand) :=
  match batch with
  | VArray [] => decodeNamed VUndefined []
  | VArray (name :: tuples) => decodeNamed name tuples
  | _ => Throw TypeError
  end.

(** The successfully decoded commands of the batches of a notification,
    batch by batch, in arrival order. *)
Definition decodedCommands (batches : list Value) : list ScreenCommand :=
  flat_map (fun batch => match decodeCommand batch with
                         | Normal (Some c) => [c]
                         | _ => []
                         end) batches.

(** The one action of a decoded command. *)
Definition actionOf (c : ScreenCommand) : Actions.Action :=
  match c with
  | CursorGoto row col => Actions.createCursorGotoAction row col
  | Put characters => Actions.put characters
  | SetScrollRegion top bottom leftmost rightmost =>
      Actions.setScrollRegion top bottom leftmost rightmost
  | Scroll count => Actions.scroll count
  | SetHighlight bold italic reverse underline undercurl foreground background =>
      Actions.setHighlight bold italic reverse underline undercurl
        foreground background
  | Resize columns rows => Actions.resize columns rows
  | ClearToEndOfLine => Actions.clearToEndOfLine
  | Clear => Actions.clear
  | UpdateForeground color => Actions.updateForeground color
  | UpdateBackground color => Actions.updateBackground color
  | ModeChange modeName => Actions.changeMode modeName
  end.

(** Modelled from the spec: the Highlight State Tracker.  [NeovimInstance]
    keeps no highlight state of its own; the state is the one a consumer
    of the action stream holds, where a [setHighlight] action replaces all
    fields at once and no other action touches them. *)
Record HighlightState : Type := mkHighlightState {
  hl_bold : bool;
  hl_italic : bool;
  hl_reverse : bool;
  hl_underline : bool;
  hl_undercurl : bool;
  hl_foreground : Value;
  hl_background : Value
}.

Definition applyAction (hs : HighlightState) (a : Actions.Action) : HighlightState :=
  match a with
  | Actions.setHighlight bold italic reverse underline undercurl fg bg =>
      mkHighlightState bold italic reverse underline undercurl fg bg
  | _ => hs
  end.

Definition highlightAfter (hs : HighlightState) (tr : list Effect) : HighlightState :=
  fold_left applyAction (emittedActions tr) hs.


(** The grid that [resize] computes from a viewport, as (columns, rows). *)
Definition gridOf (self : NeovimInstance) (widthInPixels heightInPixels : Z)
  : JsNumber * JsNumber :=
  (floorDiv widthInPixels (_fontWidthInPixels self),
   floorDiv heightInPixels (_fontHeightInPixels self)).

(** The grid that a resize negotiation asks for, as (columns, rows): the
    forced one when [debug.fixedSize] is set, the computed one otherwise. *)
Definition requestedGrid (cfg : Config.Values) (self : NeovimInstance)
           (widthInPixels heightInPixels : Z) : JsNumber * JsNumber :=
  match Config.debug_fixedSize cfg with
  | Some fixedSize => (Config.columns fixedSize, Config.rows fixedSize)
  | None => gridOf self widthInPixels heightInPixels
  end.


(** ** Sample inputs *)

Definition tenByTen (_ _ : string) : FontMeasurement := mkFontMeasurement 10 10.

Definition noOverride : Config.Values := Config.mkValues "Consolas" "14px" None.

Definition forced24x100 : Config.Values :=
  Config.mkValues "Consolas" "14px"
    (Some (Config.mkFixedSize (Finite 24) (Finite 100))).

Definition pluginPayload : Value :=
  VArray [VArray [VString "pluginMethod"; VString "x"; VString "y"]].

(** ** Further observations *)

(** The calls made on the Neovim client, in order. *)
Definition clientCalls (tr : list Effect) : list Effect := filter isClientCall tr.

(** What the handler chained on [startNeovim] asks of the client. *)
Definition startupCalls : list Effect :=
  [NvCommand "colorscheme onedark";
   NvOn "notification"; NvOn "request"; NvOn "disconnect";
   UiAttach 80 40 true].

Definition asRequest (size : JsNumber * JsNumber) : Effect :=
  UiTryResize (fst size) (snd size).

Definition sizeOf (r : Reaction) : JsNumber * JsNumber :=
  match r with
  | TryResize columns rows => (columns, rows)
  end.

(** The values published on the ["mode-change"] event, in order. *)
Fixpoint modeSignals (tr : list Effect) : list Value :=
  match tr with
  | [] => []
  | EmitModeChange newMode :: rest => newMode :: modeSignals rest
  | _ :: rest => modeSignals rest
  end.

(** The modes of the [changeMode] actions among [actions], in order. *)
Fixpoint changedModes (actions : list Actions.Action) : list Value :=
  match actions with
  | [] => []
  | Actions.changeMode newMode :: rest => newMode :: changedModes rest
  | _ :: rest => changedModes rest
  end.

(** The effects a redraw pass can have. *)
Definition isRedrawEffect (e : Effect) : bool :=
  match e with
  | EmitAction _ | EmitModeChange _ => true
  | ConsoleWarnConcat prefix _ => String.eqb prefix "Unhandled command: "
  | _ => false
  end.

Definition isArray (v : Value) : bool :=
  match v with
  | VArray _ => true
  | _ => false
  end.

(** The commands whose branch reads [a[0]], the first tuple, and nothing
    else of the batch. *)
Definition firstTupleCommands : list string :=
  ["cursor_goto"; "set_scroll_region"; "scroll"; "resize";
   "update_bg"; "update_fg"; "mode_change"].

(** The properties that the [highlight_set] branch reads. *)
Definition highlightKeys : list string :=
  ["bold"; "italic"; "reverse"; "underline"; "undercurl";
   "foreground"; "background"].

(** The viewport and font changes among the turns of a run. *)
Definition isGeometryChange (t : Turn) : bool :=
  match t with
  | CallResize _ _ | CallSetFont _ _ => true
  | _ => false
  end.

Definition isNeovimStarted (t : Turn) : bool :=
  match t with
  | NeovimStarted => true
  | _ => false
  end.

(** What the host can ask of the client once Neovim has started. *)
Definition isHostCall (e : Effect) : bool :=
  match e with
  | UiTryResize _ _ | NvInput _ | NvCommand _ => true
  | _ => false
  end.

(** What holds of an adapter [self] and the trace [tr] of its life so
    far: until the start-up promise is fulfilled there is no client and
    nothing has been asked of one; from then on the client has been asked
    for the start-up calls and, after them, for resizes, input and
    commands only. *)
Definition clientInvariant (self : NeovimInstance) (tr : list Effect) : Prop :=
  match state (_initPromise self) with
  | Fulfilled =>
      _neovim self = true /\
      exists later : list Effect,
        clientCalls tr = startupCalls ++ later /\
        forallb isHostCall later = true
  | _ => _neovim self = false /\ clientCalls tr = []
  end.

(** * Properties *)

(** ** The effect monad *)

Lemma bind_ret_l {A B} (a : A) (k : A -> M B) : bind (ret a) k = k a.
Proof. unfold bind, ret. destruct (k a). reflexivity. Qed.

Lemma bind_assoc {A B C} (m : M A) (k : A -> M B) (k' : B -> M C) :
  bind (bind m k) k' = bind m (fun a => bind (k a) k').
Proof.
  destruct m as [tr [a | e]]; simpl; [ | reflexivity ].
  destruct (k a) as [tr1 [b | e]]; simpl; [ | reflexivity ].
  destruct (k' b) as [tr2 r]. now rewrite app_assoc.
Qed.

Lemma bind_throw {A B} tr e (k : A -> M B) : bind (tr, Throw e) k = (tr, Throw e).
Proof. reflexivity. Qed.

Lemma effects_bind_normal {A B} (m : M A) (k : A -> M B) a :
  completion m = Normal a ->
  effects (bind m k) = effects m ++ effects (k a).
Proof.
  destruct m as [tr c]; simpl; intros ->. simpl. now destruct (k a).
Qed.

Lemma completion_bind_normal {A B} (m : M A) (k : A -> M B) a :
  completion m = Normal a ->
  completion (bind m k) = completion (k a).
Proof.
  destruct m as [tr c]; simpl; intros ->. simpl. now destruct (k a).
Qed.

Lemma forEach_app callback (l1 l2 : list Value) :
  forEach callback (l1 ++ l2) = forEach callback l1 ;;; forEach callback l2.
Proof.
  induction l1 as [ | x l1 IH]; cbn [forEach app].
  - now rewrite bind_ret_l.
  - now rewrite bind_assoc, IH.
Qed.

Lemma emittedActions_app tr1 tr2 :
  emittedActions (tr1 ++ tr2) = emittedActions tr1 ++ emittedActions tr2.
Proof.
  induction tr1 as [ | e tr1 IH]; simpl; [ reflexivity | ].
  destruct e; simpl; now rewrite ?IH.
Qed.

(** ** Reading the payload *)

Lemma strictEqString_true v s : strictEqString v s = true -> v = VString s.
Proof.
  destruct v; simpl; try discriminate.
  intros H. apply String.eqb_eq in H. now subst.
Qed.

Lemma nth_length_cons (l : list Value) (x : Value) :
  nth (List.length l) (x :: l) VUndefined = last (x :: l) VUndefined.
Proof.
  revert x. induction l as [ | y l IH]; intros x; [ reflexivity | ].
  change (nth (List.length l) (y :: l) VUndefined = last (y :: l) VUndefined).
  apply IH.
Qed.

Lemma elementAt_last (l : list Value) :
  elementAt l (Z.of_nat (List.length l) - 1) = last l VUndefined.
Proof.
  unfold elementAt. destruct l as [ | x l]; [ reflexivity | ].
  replace (Z.of_nat (List.length (x :: l)) - 1) with (Z.of_nat (List.length l))
    by (simpl List.length; lia).
  destruct (Z.ltb_spec (Z.of_nat (List.length l)) 0) as [Hneg | _]; [ lia | ].
  rewrite Nat2Z.id. apply nth_length_cons.
Qed.

Lemma elementAt_snoc (earlier : list Value) (t : Value) :
  elementAt (earlier ++ [t]) (Z.of_nat (List.length (earlier ++ [t])) - 1) = t.
Proof. rewrite elementAt_last. apply last_last. Qed.

Lemma mapArray_arrays (tuples : list (list Value)) :
  mapArray (fun v => getIndex v 0) (map VArray tuples)
  = Normal (map (fun t => element t 0) tuples).
Proof.
  induction tuples as [ | t tuples IH]; simpl; [ reflexivity | ].
  now rewrite IH.
Qed.

(** The head of a batch selects the branch. *)
Ltac by_command name :=
  repeat match goal with
    | |- context [strictEqString name ?s] =>
        let E := fresh "E" in
        destruct (strictEqString name s) eqn:E;
        [ apply strictEqString_true in E; subst name; cbn | ]
    end.

(** Each batch emits the action of the command it decodes to.  It raises
    when its decoding does, and also when it names no command and the
    name cannot be made a string for the warning; a batch that raises has
    had no effect. *)
Lemma redrawCallback_decode (batch : Value) :
  match decodeCommand batch with
  | Normal (Some c) =>
      completion (redrawCallback batch) = Normal tt /\
      emittedActions (effects (redrawCallback batch)) = [actionOf c]
  | Normal None =>
      emittedActions (effects (redrawCallback batch)) = [] /\
      (completion (redrawCallback batch) = Normal tt \/
       redrawCallback batch = ([], Throw TypeError))
  | Throw e => redrawCallback batch = ([], Throw e)
  end.
Proof.
  destruct batch as [ | | b | n | s | l | fs | f ]; try reflexivity.
  destruct l as [ | name tuples]; [ cbn; auto | ].
  unfold decodeCommand, redrawCallback, decodeNamed.
  cbn [getIndex nth shift eval bind fst snd app].
  by_command name.
  all: try rewrite elementAt_last.
  all: try (destruct (element tuples 0); cbn; auto; fail).
  - destruct (mapArray (fun v => getIndex v 0) tuples); cbn; auto.
  - destruct (getIndex (last tuples VUndefined) 0) as [info | e]; cbn; auto.
    destruct info; cbn; auto.
  - destruct (concat name) as [[] | []]; cbn; auto.
Qed.

(** The trace of a batch holds no call on the Neovim client. *)
Lemma redrawCallback_no_client_call (batch : Value) :
  forallb (fun e => negb (isClientCall e)) (effects (redrawCallback batch)) = true.
Proof.
  destruct batch as [ | | b | n | s | l | fs | f ]; try reflexivity.
  destruct l as [ | name tuples]; [ reflexivity | ].
  unfold redrawCallback.
  cbn [getIndex nth shift eval bind fst snd app].
  by_command name.
  all: try (destruct (element tuples 0); cbn; auto; fail).
  - destruct (mapArray (fun v => getIndex v 0) tuples); cbn; auto.
  - destruct (getIndex (elementAt tuples _) 0) as [info | e]; cbn; auto.
    destruct info; cbn; auto.
  - destruct (concat name) as [[] | []]; cbn; auto.
Qed.

(** ** The redraw channel *)

Lemma handleNotification_cons method (batch : Value) (rest : list Value) :
  _handleNotification method (VArray (batch :: rest))
  = redrawCallback batch ;;; _handleNotification method (VArray rest).
Proof. reflexivity. Qed.

Lemma decodedCommands_cons (batch : Value) (rest : list Value) :
  decodedCommands (batch :: rest) = decodedCommands [batch] ++ decodedCommands rest.
Proof. unfold decodedCommands. cbn [flat_map]. now rewrite app_nil_r. Qed.

Lemma decodedCommands_app (l1 l2 : list Value) :
  decodedCommands (l1 ++ l2) = decodedCommands l1 ++ decodedCommands l2.
Proof. apply flat_map_app. Qed.

(** Whatever a batch does, the actions it emits are those of the command
    it decodes to. *)
Lemma redrawCallback_actions (batch : Value) :
  emittedActions (effects (redrawCallback batch))
  = map actionOf (decodedCommands [batch]).
Proof.
  pose proof (redrawCallback_decode batch) as Hb.
  unfold decodedCommands. cbn [flat_map].
  destruct (decodeCommand batch) as [[c | ] | e].
  - now destruct Hb as [_ ->].
  - now destruct Hb as [-> _].
  - now rewrite Hb.
Qed.

Lemma redrawCallback_raises (batch : Value) (e : JsError) :
  completion (redrawCallback batch) = Throw e ->
  redrawCallback batch = ([], Throw e).
Proof.
  intros Hthrow. pose proof (redrawCallback_decode batch) as Hb.
  destruct (decodeCommand batch) as [[c | ] | e'].
  - destruct Hb as [Hdone _]. congruence.
  - destruct Hb as [_ [Hdone | Hraise]]; [ congruence | ].
    rewrite Hraise in Hthrow |- *. cbn in Hthrow. congruence.
  - rewrite Hb in Hthrow |- *. cbn in Hthrow. congruence.
Qed.

(** A batch that decodes to a command does not raise. *)
Lemma decoded_batch_completes (batch : Value) (c : ScreenCommand) :
  decodeCommand batch = Normal (Some c) ->
  completion (redrawCallback batch) = Normal tt.
Proof.
  intros Hc. pose proof (redrawCallback_decode batch) as Hb.
  rewrite Hc in Hb. apply Hb.
Qed.

(** A pass in which no batch raises reaches every batch. *)
Lemma handleNotification_all method (batches : list Value) :
  Forall (fun batch => completion (redrawCallback batch) = Normal tt) batches ->
  completion (_handleNotification method (VArray batches)) = Normal tt /\
  emittedActions (effects (_handleNotification method (VArray batches)))
  = map actionOf (decodedCommands batches).
Proof.
  induction 1 as [ | batch rest Hdone _ [IHc IHa]]; [ now split | ].
  rewrite handleNotification_cons. split.
  - now rewrite (completion_bind_normal _ _ _ Hdone).
  - rewrite (effects_bind_normal _ _ _ Hdone), emittedActions_app.
    rewrite redrawCallback_actions, IHa, <- map_app.
    now rewrite <- decodedCommands_cons.
Qed.

(** A batch that raises ends the pass. *)
Lemma handleNotification_abort method (before after : list Value)
      (bad : Value) (e : JsError) :
  Forall (fun batch => completion (redrawCallback batch) = Normal tt) before ->
  completion (redrawCallback bad) = Throw e ->
  _handleNotification method (VArray (before ++ bad :: after))
  = (effects (_handleNotification method (VArray before)), Throw e).
Proof.
  intros Hbefore Hbad.
  destruct (handleNotification_all method before Hbefore) as [Hdone _].
  change (forEach redrawCallback (before ++ bad :: after)
          = (effects (forEach redrawCallback before), Throw e)).
  change (completion (forEach redrawCallback before) = Normal tt) in Hdone.
  rewrite forEach_app. cbn [forEach].
  rewrite (redrawCallback_raises bad e Hbad), bind_throw.
  destruct (forEach redrawCallback before) as [tr r]. cbn in Hdone. subst r.
  cbn. now rewrite app_nil_r.
Qed.

(** C1 as stated fails.  The second batch has no tuple for [cursor_goto]
    to read and raises; the [eol_clear] batch after it decodes to a
    command, but the pass has ended and its action is never emitted. *)
Lemma redraw_stops_at_unreadable_batch :
  emittedActions
    (effects (onNotification "redraw"
                (VArray [VArray [VString "clear"; VArray []];
                         VArray [VString "cursor_goto"];
                         VArray [VString "eol_clear"; VArray []]])))
  <> map actionOf
       (decodedCommands [VArray [VString "clear"; VArray []];
                         VArray [VString "cursor_goto"];
                         VArray [VString "eol_clear"; VArray []]]).
Proof. cbv. intros H. discriminate H. Qed.

(** C1, amended.  When no batch of a redraw notification raises, the
    pass completes and the actions emitted are, in order, the actions of
    the successfully decoded commands of all its batches: nothing is
    reordered, held back or dropped.  A batch that raises (a command
    whose tuple is missing, an unknown name that cannot be made a string)
    ends the pass: the notification raises, and the actions emitted are
    those of the batches before it.  Processing is sequential: the trace
    of a notification is the trace of any first part of its batches
    followed by the trace of the rest, so the action of a batch is out
    before the next batch is looked at. *)
Theorem redraw_actions_until_first_raise :
  (forall batches : list Value,
      Forall (fun batch => completion (redrawCallback batch) = Normal tt)
        batches ->
      completion (onNotification "redraw" (VArray batches)) = Normal tt /\
      emittedActions (effects (onNotification "redraw" (VArray batches)))
      = map actionOf (decodedCommands batches)) /\
  (forall (before after : list Value) (bad : Value) (e : JsError),
      Forall (fun batch => completion (redrawCallback batch) = Normal tt)
        before ->
      completion (redrawCallback bad) = Throw e ->
      completion (onNotification "redraw" (VArray (before ++ bad :: after)))
      = Throw e /\
      emittedActions
        (effects (onNotification "redraw" (VArray (before ++ bad :: after))))
      = map actionOf (decodedCommands before)) /\
  (forall earlier later : list Value,
      onNotification "redraw" (VArray (earlier ++ later))
      = onNotification "redraw" (VArray earlier) ;;;
        onNotification "redraw" (VArray later)).
Proof.
  split; [ | split ].
  - intros batches Hall. now apply handleNotification_all.
  - intros before after bad e Hbefore Hbad.
    change (onNotification "redraw" (VArray (before ++ bad :: after)))
      with (_handleNotification "redraw" (VArray (before ++ bad :: after))).
    rewrite (handleNotification_abort "redraw" before after bad e Hbefore Hbad).
    split; [ reflexivity | ].
    now apply handleNotification_all.
  - intros earlier later. apply forEach_app.
Qed.

Lemma redraw_actions_until_first_raise_witness :
  emittedActions
    (effects (onNotification "redraw"
                (VArray [VArray [VString "cursor_goto";
                                 VArray [VNumber 3; VNumber 7]];
                         VArray [VString "mouse_on"; VArray []];
                         VArray [VString "put"; VArray [VString "o"];
                                 VArray [VString "k"]];
                         VArray [VString "mode_change";
                                 VArray [VString "insert"]]])))
  = [Actions.createCursorGotoAction (VNumber 3) (VNumber 7);
     Actions.put [VString "o"; VString "k"];
     Actions.changeMode (VString "insert")] /\
  emittedActions
    (effects (onNotification "redraw"
                (VArray ([VArray [VString "clear"; VArray []]]
                           ++ VArray [VString "cursor_goto"]
                           :: [VArray [VString "eol_clear"; VArray []]]))))
  = [Actions.clear].
Proof.
  split.
  - refine (proj2 (proj1 redraw_actions_until_first_raise
                     [VArray [VString "cursor_goto";
                              VArray [VNumber 3; VNumber 7]];
                      VArray [VString "mouse_on"; VArray []];
                      VArray [VString "put"; VArray [VString "o"];
                              VArray [VString "k"]];
                      VArray [VString "mode_change";
                              VArray [VString "insert"]]] _)).
    repeat constructor.
  - refine (proj2 (proj1 (proj2 redraw_actions_until_first_raise)
                     [VArray [VString "clear"; VArray []]]
                     [VArray [VString "eol_clear"; VArray []]]
                     (VArray [VString "cursor_goto"]) TypeError _ _)).
    + repeat constructor.
    + reflexivity.
Defined.

(** One notification, its whole trace: the mode change is also published
    on its own event, after the action. *)
Example redraw_trace :
  onNotification "redraw"
    (VArray [VArray [VString "cursor_goto"; VArray [VNumber 3; VNumber 7]];
             VArray [VString "mouse_on"; VArray []];
             VArray [VString "put"; VArray [VString "o"]; VArray [VString "k"]];
             VArray [VString "mode_change"; VArray [VString "insert"]]])
  = ([EmitAction (Actions.createCursorGotoAction (VNumber 3) (VNumber 7));
      EmitAction (Actions.put [VString "o"; VString "k"]);
      EmitAction (Actions.changeMode (VString "insert"));
      EmitModeChange (VString "insert")],
     Normal tt).
Proof. reflexivity. Qed.

(** A batch without the tuple its command reads raises a [TypeError];
    there is no handler for it, so the pass ends there. *)
Example unreadable_batch_ends_pass :
  onNotification "redraw"
    (VArray [VArray [VString "clear"; VArray []];
             VArray [VString "cursor_goto"];
             VArray [VString "eol_clear"; VArray []]])
  = ([EmitAction Actions.clear], Throw TypeError).
Proof. reflexivity. Qed.

(** *** [highlight_set] *)

Lemma highlight_set_last (tuples : list Value) :
  redrawCallback (VArray (VString "highlight_set" :: tuples))
  = redrawCallback (VArray [VString "highlight_set"; last tuples VUndefined]).
Proof.
  unfold redrawCallback.
  cbn [getIndex nth shift eval bind fst snd app strictEqString String.eqb
       Ascii.eqb Bool.eqb].
  rewrite !elementAt_last. reflexivity.
Qed.

(** C2.  A [highlight_set] batch is handled as if it held its last tuple
    only.  When the first field of that tuple is a value whose properties
    can be read, exactly one [setHighlight] action is emitted; its five
    flags are the booleans [!!] of the properties of that field, its
    colours are the properties as they are, and the highlight state that
    follows holds the same seven values whatever it held before. *)
Theorem highlight_set_uses_last_tuple (earlier : list Value) (lastTuple : Value) :
  redrawCallback (VArray (VString "highlight_set" :: earlier ++ [lastTuple]))
  = redrawCallback (VArray [VString "highlight_set"; lastTuple]) /\
  forall info : Value,
    getIndex lastTuple 0 = Normal info ->
    isNullish info = false ->
    let bold := toBoolean (valueOf (getProp info "bold")) in
    let italic := toBoolean (valueOf (getProp info "italic")) in
    let reverse := toBoolean (valueOf (getProp info "reverse")) in
    let underline := toBoolean (valueOf (getProp info "underline")) in
    let undercurl := toBoolean (valueOf (getProp info "undercurl")) in
    let foreground := valueOf (getProp info "foreground") in
    let background := valueOf (getProp info "background") in
    redrawCallback (VArray (VString "highlight_set" :: earlier ++ [lastTuple]))
    = perform (EmitAction (Actions.setHighlight bold italic reverse underline
                             undercurl foreground background)) /\
    forall before : HighlightState,
      highlightAfter before
        (effects (redrawCallback
                    (VArray (VString "highlight_set" :: earlier ++ [lastTuple]))))
      = mkHighlightState bold italic reverse underline undercurl
          foreground background.
Proof.
  rewrite highlight_set_last, last_last. split; [ reflexivity | ].
  intros info Hinfo Hnullish.
  unfold redrawCallback.
  cbn [getIndex nth shift eval bind fst snd app strictEqString String.eqb
       Ascii.eqb Bool.eqb List.length Z.of_nat Pos.of_succ_nat Z.sub Z.add
       Z.opp Z.pos_sub elementAt Z.ltb Z.compare Z.to_nat].
  rewrite Hinfo.
  destruct info; try discriminate Hnullish; cbn; split; reflexivity.
Qed.

Lemma highlight_set_uses_last_tuple_witness :
  redrawCallback
    (VArray (VString "highlight_set"
               :: [VArray [VObject [("bold", VBoolean true);
                                    ("foreground", VNumber 255)]]]
               ++ [VArray [VObject [("italic", VNumber 1)]]]))
  = perform (EmitAction (Actions.setHighlight false true false false false
                           VUndefined VUndefined)).
Proof.
  refine (proj1 (proj2 (highlight_set_uses_last_tuple
                          [VArray [VObject [("bold", VBoolean true);
                                            ("foreground", VNumber 255)]]]
                          (VArray [VObject [("italic", VNumber 1)]]))
                   (VObject [("italic", VNumber 1)]) _ _)); reflexivity.
Defined.

(** The scenario of the specification: two [highlight_set] batches and a
    [put] batch in one notification. *)
Example highlight_then_put :
  effects (onNotification "redraw"
             (VArray [VArray [VString "highlight_set";
                              VArray [VObject [("bold", VBoolean false)]]];
                      VArray [VString "highlight_set";
                              VArray [VObject [("bold", VBoolean true)]]];
                      VArray [VString "put"; VArray [VString "a"];
                              VArray [VString "b"]]]))
  = [EmitAction (Actions.setHighlight false false false false false
                   VUndefined VUndefined);
     EmitAction (Actions.setHighlight true false false false false
                   VUndefined VUndefined);
     EmitAction (Actions.put [VString "a"; VString "b"])].
Proof. reflexivity. Qed.

(** *** [put] *)

(** C3.  A [put] batch of N tuples emits exactly one action, [put], whose
    payload has N entries: the first field of each tuple, in tuple
    order. *)
Theorem put_emits_one_action (tuples : list (list Value)) :
  redrawCallback (VArray (VString "put" :: map VArray tuples))
  = perform (EmitAction (Actions.put (map (fun t => element t 0) tuples))) /\
  List.length (map (fun t => element t 0) tuples) = List.length tuples.
Proof.
  split; [ | apply length_map ].
  unfold redrawCallback.
  cbn [getIndex nth shift eval bind fst snd app strictEqString String.eqb
       Ascii.eqb Bool.eqb].
  rewrite mapArray_arrays. reflexivity.
Qed.

(** *** Unrecognized commands *)

Lemma unhandled_warns (name : Value) (tuples : list Value) :
  isHandled name = false ->
  concatCompletes name = true ->
  redrawCallback (VArray (name :: tuples))
  = perform (ConsoleWarnConcat "Unhandled command: " name).
Proof.
  unfold isHandled, handledCommands. cbn [existsb]. intros H Hname.
  repeat (apply orb_false_elim in H; destruct H as [? H]).
  unfold redrawCallback.
  cbn [getIndex nth shift eval bind fst snd app].
  repeat match goal with
    | E : strictEqString name _ = false |- _ => rewrite E; clear E
    end.
  unfold concat. rewrite Hname. reflexivity.
Qed.

(** C7.  A batch whose command name has no branch of its own (a name
    that can be made a string for the warning, as every string can) is
    reported with one console warning and emits nothing else.  It does
    not stop the pass: the notification runs as the batches before it,
    the warning, and then the batches after it, so it emits the actions,
    and completes, exactly as it would without the unknown batch.  When
    none of its siblings raises, the notification completes and every
    sibling that decodes to a command has its action emitted, in order. *)
Theorem unknown_command_is_skipped
        (name : Value) (tuples before after : list Value) :
  isHandled name = false ->
  concatCompletes name = true ->
  let unknown := VArray (name :: tuples) in
  redrawCallback unknown
  = perform (ConsoleWarnConcat "Unhandled command: " name) /\
  onNotification "redraw" (VArray (before ++ unknown :: after))
  = onNotification "redraw" (VArray before) ;;;
    perform (ConsoleWarnConcat "Unhandled command: " name) ;;;
    onNotification "redraw" (VArray after) /\
  emittedActions
    (effects (onNotification "redraw" (VArray (before ++ unknown :: after))))
  = emittedActions
      (effects (onNotification "redraw" (VArray (before ++ after)))) /\
  completion (onNotification "redraw" (VArray (before ++ unknown :: after)))
  = completion (onNotification "redraw" (VArray (before ++ after))) /\
  (Forall (fun batch => completion (redrawCallback batch) = Normal tt)
     (before ++ after) ->
   completion (onNotification "redraw" (VArray (before ++ unknown :: after)))
   = Normal tt /\
   emittedActions
     (effects (onNotification "redraw" (VArray (before ++ unknown :: after))))
   = map actionOf (decodedCommands (before ++ after))).
Proof.
  intros Hname Hconverts unknown. subst unknown.
  assert (Hwarn := unhandled_warns name tuples Hname Hconverts).
  assert (Hseq :
    onNotification "redraw" (VArray (before ++ VArray (name :: tuples) :: after))
    = onNotification "redraw" (VArray before) ;;;
      perform (ConsoleWarnConcat "Unhandled command: " name) ;;;
      onNotification "redraw" (VArray after)).
  { change (forEach redrawCallback (before ++ VArray (name :: tuples) :: after)
            = forEach redrawCallback before ;;;
              perform (ConsoleWarnConcat "Unhandled command: " name) ;;;
              forEach redrawCallback after).
    rewrite forEach_app. cbn [forEach]. now rewrite Hwarn. }
  assert (Hwithout :
    onNotification "redraw" (VArray (before ++ after))
    = onNotification "redraw" (VArray before) ;;;
      onNotification "redraw" (VArray after)) by apply forEach_app.
  assert (Hactions :
    emittedActions
      (effects (onNotification "redraw"
                  (VArray (before ++ VArray (name :: tuples) :: after))))
    = emittedActions
        (effects (onNotification "redraw" (VArray (before ++ after))))).
  { rewrite Hseq, Hwithout.
    destruct (onNotification "redraw" (VArray before)) as [tr [[] | e]];
      [ | reflexivity ].
    destruct (onNotification "redraw" (VArray after)) as [tr' r].
    cbn. rewrite !emittedActions_app. reflexivity. }
  assert (Hcompletion :
    completion (onNotification "redraw"
                  (VArray (before ++ VArray (name :: tuples) :: after)))
    = completion (onNotification "redraw" (VArray (before ++ after)))).
  { rewrite Hseq, Hwithout.
    destruct (onNotification "redraw" (VArray before)) as [tr [[] | e]];
      [ | reflexivity ].
    destruct (onNotification "redraw" (VArray after)) as [tr' r].
    reflexivity. }
  split; [ exact Hwarn | ]. split; [ exact Hseq | ].
  split; [ exact Hactions | ]. split; [ exact Hcompletion | ].
  intros Hsiblings. rewrite Hcompletion, Hactions.
  now apply handleNotification_all.
Qed.

Lemma unknown_command_is_skipped_witness :
  completion
    (onNotification "redraw"
       (VArray ([] ++ VArray [VString "bell"; VArray []]
                   :: [VArray [VString "clear"; VArray []]])))
  = Normal tt /\
  emittedActions
    (effects (onNotification "redraw"
                (VArray ([] ++ VArray [VString "bell"; VArray []]
                            :: [VArray [VString "clear"; VArray []]]))))
  = [Actions.clear].
Proof.
  refine (proj2 (proj2 (proj2 (proj2 (unknown_command_is_skipped
                                        (VString "bell") [VArray []] []
                                        [VArray [VString "clear"; VArray []]]
                                        _ _)))) _).
  - reflexivity.
  - reflexivity.
  - repeat constructor.
Defined.

(** The scenario of the specification: an unrecognized command next to a
    [clear]. *)
Example unknown_then_clear :
  onNotification "redraw"
    (VArray [VArray [VString "bell"; VArray []];
             VArray [VString "clear"; VArray []]])
  = ([ConsoleWarnConcat "Unhandled command: " (VString "bell");
      EmitAction Actions.clear],
     Normal tt).
Proof. reflexivity. Qed.

(** *** [mouse_on] and [mouse_off] *)

(** C9.  [mouse_on] has a branch of its own, which does nothing: no
    effect at all, whatever its tuples.  [mouse_off] has none: it emits
    no action, but it is reported as an unhandled command. *)
Theorem mouse_on_silent_mouse_off_reported (tuples : list Value) :
  redrawCallback (VArray (VString "mouse_on" :: tuples)) = ret tt /\
  redrawCallback (VArray (VString "mouse_off" :: tuples))
  = perform (ConsoleWarnConcat "Unhandled command: " (VString "mouse_off")).
Proof. split; reflexivity. Qed.

(** ** The plugin channel *)

(** C6 as stated fails: the plugin manager is not handed the remainder
    [["x", "y"]] of the first payload element. *)
Lemma plugin_notify_not_the_remainder :
  effects (onNotification "oni_plugin_notify" pluginPayload)
  <> [PluginHandleNotification (VString "pluginMethod")
        (VArray [VString "x"; VString "y"])].
Proof. cbv. intros H. discriminate H. Qed.

(** C6, amended.  On [oni_plugin_notify] the first field of the first
    payload element is removed and used as the method name, and the
    plugin manager is handed the whole payload, whose first element is
    now the remainder.  Nothing else happens: no action is emitted and the
    highlight state stays as it was. *)
Theorem plugin_notify_forwards_payload
        (pluginMethod : Value) (remainder others : list Value) :
  let payload := VArray (VArray (pluginMethod :: remainder) :: others) in
  onNotification "oni_plugin_notify" payload
  = perform (PluginHandleNotification pluginMethod
               (VArray (VArray remainder :: others))) /\
  emittedActions (effects (onNotification "oni_plugin_notify" payload)) = [] /\
  forall hs : HighlightState,
    highlightAfter hs (effects (onNotification "oni_plugin_notify" payload)) = hs.
Proof. repeat split. Qed.

Example plugin_notify_scenario :
  onNotification "oni_plugin_notify" pluginPayload
  = perform (PluginHandleNotification (VString "pluginMethod")
               (VArray [VArray [VString "x"; VString "y"]])).
Proof. reflexivity. Qed.

(** ** Geometry negotiation *)

Lemma resizeRequests_app tr1 tr2 :
  resizeRequests (tr1 ++ tr2) = resizeRequests tr1 ++ resizeRequests tr2.
Proof.
  induction tr1 as [ | e tr1 IH]; simpl; [ reflexivity | ].
  destruct e; simpl; now rewrite ?IH.
Qed.

Lemma attachRequests_app tr1 tr2 :
  attachRequests (tr1 ++ tr2) = attachRequests tr1 ++ attachRequests tr2.
Proof.
  induction tr1 as [ | e tr1 IH]; simpl; [ reflexivity | ].
  destruct e; simpl; now rewrite ?IH.
Qed.

Lemma no_client_call_no_request tr :
  forallb (fun e => negb (isClientCall e)) tr = true ->
  resizeRequests tr = [] /\ attachRequests tr = [].
Proof.
  induction tr as [ | e tr IH]; [ now split | ].
  cbn [forallb]. intros H. apply andb_prop in H. destruct H as [He Htr].
  destruct (IH Htr) as [IH1 IH2].
  destruct e; try discriminate He; now split.
Qed.

Lemma effects_bind {A B} (m : M A) (k : A -> M B) :
  effects (bind m k)
  = effects m ++ match completion m with
                 | Normal a => effects (k a)
                 | Throw _ => []
                 end.
Proof.
  destruct m as [tr [a | e]]; simpl.
  - now destruct (k a).
  - now rewrite app_nil_r.
Qed.

Lemma forEach_no_client_call (batches : list Value) :
  forallb (fun e => negb (isClientCall e))
    (effects (forEach redrawCallback batches)) = true.
Proof.
  induction batches as [ | batch rest IH]; [ reflexivity | ].
  cbn [forEach]. rewrite effects_bind, forallb_app.
  rewrite redrawCallback_no_client_call.
  destruct (completion (redrawCallback batch)); [ exact IH | reflexivity ].
Qed.

Lemma onNotification_no_client_call (method : string) (args : Value) :
  forallb (fun e => negb (isClientCall e))
    (effects (onNotification method args)) = true.
Proof.
  unfold onNotification.
  destruct (String.eqb method "redraw").
  - destruct args; try reflexivity. apply forEach_no_client_call.
  - destruct (String.eqb method "oni_plugin_notify"); [ | reflexivity ].
    destruct (getIndex args 0) as [pluginArgs | e]; [ | reflexivity ].
    cbn [eval bind app].
    destruct (shift pluginArgs) as [shifted | e]; reflexivity.
Qed.

Lemma resizeRequests_reactions (rs : list Reaction) :
  resizeRequests (map runReaction rs)
  = map (fun r => match r with TryResize columns rows => (columns, rows) end) rs.
Proof.
  induction rs as [ | [columns rows] rs IH]; simpl; [ reflexivity | ].
  now rewrite IH.
Qed.

Lemma attachRequests_reactions (rs : list Reaction) :
  attachRequests (map runReaction rs) = [].
Proof. induction rs as [ | [columns rows] rs IH]; simpl; auto. Qed.

Section Negotiation.

Variable measureFont : string -> string -> FontMeasurement.
Variable cfg : Config.Values.

(** What [resize] does to the adapter. *)
Lemma resize_registers (widthInPixels heightInPixels : Z) (self : NeovimInstance) :
  let requested := requestedGrid cfg self widthInPixels heightInPixels in
  reactions (_initPromise (snd (resize cfg widthInPixels heightInPixels self)))
  = reactions (_initPromise self) ++ [TryResize (fst requested) (snd requested)] /\
  state (_initPromise (snd (resize cfg widthInPixels heightInPixels self)))
  = state (_initPromise self) /\
  _neovim (snd (resize cfg widthInPixels heightInPixels self)) = _neovim self /\
  resizeRequests (fst (resize cfg widthInPixels heightInPixels self)) = [] /\
  attachRequests (fst (resize cfg widthInPixels heightInPixels self)) = [].
Proof.
  unfold resize, _resizeInternal, requestedGrid, gridOf.
  destruct (Config.debug_fixedSize cfg); cbn; auto.
Qed.

Lemma setFont_registers (fontFamily fontSize : string) (self : NeovimInstance) :
  exists widthInPixels heightInPixels self',
    let requested := requestedGrid cfg self' widthInPixels heightInPixels in
    reactions (_initPromise (snd (setFont measureFont cfg fontFamily fontSize self)))
    = reactions (_initPromise self) ++ [TryResize (fst requested) (snd requested)] /\
    state (_initPromise (snd (setFont measureFont cfg fontFamily fontSize self)))
    = state (_initPromise self) /\
    _neovim (snd (setFont measureFont cfg fontFamily fontSize self)) = _neovim self /\
    resizeRequests (fst (setFont measureFont cfg fontFamily fontSize self)) = [] /\
    attachRequests (fst (setFont measureFont cfg fontFamily fontSize self)) = [].
Proof.
  unfold setFont.
  match goal with
  | |- context [resize cfg ?w ?h ?s] =>
      exists w, h, s; pose proof (resize_registers w h s) as H;
      destruct (resize cfg w h s) as [tr self']
  end.
  cbn [fst snd] in *. cbn [resizeRequests attachRequests]. exact H.
Qed.

End Negotiation.

Section FixedSize.

Variable measureFont : string -> string -> FontMeasurement.
Variable cfg : Config.Values.
Variable fixedSize : Config.FixedSize.
Hypothesis override : Config.debug_fixedSize cfg = Some fixedSize.

Let forcedReaction : Reaction :=
  TryResize (Config.columns fixedSize) (Config.rows fixedSize).

Let forcedGrid : JsNumber * JsNumber :=
  (Config.columns fixedSize, Config.rows fixedSize).

Lemma requestedGrid_forced (self : NeovimInstance) (w h : Z) :
  requestedGrid cfg self w h = forcedGrid.
Proof. unfold requestedGrid. now rewrite override. Qed.

(** Under the override every waiting request is the forced one, and a
    turn of the event loop keeps it so and sends nothing else. *)
Lemma turn_keeps_forced (t : Turn) (self : NeovimInstance) :
  Forall (eq forcedReaction) (reactions (_initPromise self)) ->
  Forall (eq forcedReaction)
    (reactions (_initPromise (snd (turn measureFont cfg t self)))) /\
  Forall (eq forcedGrid) (resizeRequests (fst (turn measureFont cfg t self))).
Proof.
  intros Hinv. destruct t as [w h | family size | | | | | method args | text | text];
    cbn [turn].
  - destruct (resize_registers cfg w h self) as (Hr & _ & _ & Hq & _).
    rewrite Hr, Hq, requestedGrid_forced. split; [ | constructor ].
    apply Forall_app. split; [ exact Hinv | ]. repeat constructor.
  - destruct (setFont_registers measureFont cfg family size self)
      as (w & h & self' & Hr & _ & _ & Hq & _).
    rewrite Hr, Hq, requestedGrid_forced. split; [ | constructor ].
    apply Forall_app. split; [ exact Hinv | ]. repeat constructor.
  - destruct (state (_initPromise self)); cbn; split; auto.
  - destruct (state (_initPromise self)); cbn; split; auto.
  - destruct (_neovim self); cbn; split; auto.
  - unfold runReactions. destruct (state (_initPromise self)); cbn [fst snd];
      try (split; [ exact Hinv | constructor ]).
    cbn. split; [ constructor | ].
    rewrite resizeRequests_reactions. apply Forall_map.
    revert Hinv. apply Forall_impl. intros r <-. reflexivity.
  - destruct (_neovim self); cbn [fst snd]; try (split; [ exact Hinv | constructor ]).
    destruct (no_client_call_no_request _ (onNotification_no_client_call method args))
      as [Hq _].
    rewrite Hq. split; [ exact Hinv | constructor ].
  - unfold input. destruct (_neovim self); cbn; split; auto.
  - unfold command. destruct (_neovim self); cbn; split; auto.
Qed.

Lemma turns_keep_forced (history : list Turn) (self : NeovimInstance) :
  Forall (eq forcedReaction) (reactions (_initPromise self)) ->
  Forall (eq forcedGrid) (resizeRequests (fst (turns measureFont cfg history self))).
Proof.
  revert self. induction history as [ | t history IH]; intros self Hinv;
    cbn [turns]; [ constructor | ].
  destruct (turn_keeps_forced t self Hinv) as [Hinv' Hsent].
  destruct (turn measureFont cfg t self) as [tr self'].
  specialize (IH self' Hinv').
  destruct (turns measureFont cfg history self') as [tr' self''].
  cbn [fst snd] in *. rewrite resizeRequests_app. apply Forall_app. now split.
Qed.

Lemma constructor_forced (widthInPixels heightInPixels : Z) :
  reactions (_initPromise (snd (constructor measureFont cfg widthInPixels heightInPixels)))
  = [forcedReaction].
Proof.
  unfold constructor.
  match goal with
  | |- context [setFont measureFont cfg ?f ?s ?self] =>
      destruct (setFont_registers measureFont cfg f s self)
        as (w & h & self' & Hr & _);
      destruct (setFont measureFont cfg f s self) as [tr self'']
  end.
  cbn [fst snd] in *. now rewrite Hr, requestedGrid_forced.
Qed.

End FixedSize.

(** *** Every viewport change asks for a resize *)


Example same_viewport_twice :
  fst (turns tenByTen noOverride
         [NeovimStarted; InitReactions;
          CallResize 805 403; InitReactions]
         (snd (constructor tenByTen noOverride 805 403)))
  = [ConsoleLog "NevoimInstance: Neovim started";
     NvCommand "colorscheme onedark";
     NvOn "notification"; NvOn "request"; NvOn "disconnect";
     UiAttach 80 40 true;
     UiTryResize (Finite 80) (Finite 40);
     UiTryResize (Finite 80) (Finite 40)].
Proof. reflexivity. Qed.



(** *** The 805 by 403 viewport *)

(** C8.  With cells of 10 by 10 pixels and no forced size, a viewport of
    805 by 403 pixels gives 80 columns and 40 rows, and the resize
    registers one request, for (80, 40) as (columns, rows).  On an adapter
    whose start-up promise is fulfilled and has nothing waiting, that
    request is the one call the viewport change leads to. *)
Theorem viewport_805_by_403
        (measureFont : string -> string -> FontMeasurement)
        (cfg : Config.Values) (self : NeovimInstance) :
  _fontWidthInPixels self = Some 10 ->
  _fontHeightInPixels self = Some 10 ->
  Config.debug_fixedSize cfg = None ->
  gridOf self 805 403 = (Finite 80, Finite 40) /\
  reactions (_initPromise (snd (resize cfg 805 403 self)))
  = reactions (_initPromise self) ++ [TryResize (Finite 80) (Finite 40)] /\
  (state (_initPromise self) = Fulfilled ->
   reactions (_initPromise self) = [] ->
   fst (turns measureFont cfg [CallResize 805 403; InitReactions] self)
   = [UiTryResize (Finite 80) (Finite 40)]).
Proof.
  intros Hw Hh Hcfg.
  assert (Hgrid : gridOf self 805 403 = (Finite 80, Finite 40)).
  { unfold gridOf. now rewrite Hw, Hh. }
  split; [ exact Hgrid | ].
  assert (Hresize :
    resize cfg 805 403 self
    = ([], mkNeovimInstance (_neovim self)
             (then_ (TryResize (Finite 80) (Finite 40)) (_initPromise self))
             (_fontFamily self) (_fontSize self)
             (_fontWidthInPixels self) (_fontHeightInPixels self) 403 805)).
  { unfold resize, _resizeInternal. cbn [_fontWidthInPixels _fontHeightInPixels
      _neovim _initPromise _fontFamily _fontSize _lastHeightInPixels
      _lastWidthInPixels].
    rewrite Hcfg, Hw, Hh. reflexivity. }
  split.
  - rewrite Hresize. reflexivity.
  - intros Hfulfilled Hempty. cbn [turns turn]. rewrite Hresize.
    unfold runReactions, then_. cbn [_initPromise state reactions fst snd].
    rewrite Hfulfilled, Hempty. reflexivity.
Qed.

Lemma viewport_805_by_403_witness :
  fst (turns tenByTen noOverride [CallResize 805 403; InitReactions]
         (snd (turns tenByTen noOverride [NeovimStarted; InitReactions]
                 (snd (constructor tenByTen noOverride 1000 500)))))
  = [UiTryResize (Finite 80) (Finite 40)].
Proof.
  refine (proj2 (proj2 (viewport_805_by_403 tenByTen noOverride
                          (snd (turns tenByTen noOverride
                                  [NeovimStarted; InitReactions]
                                  (snd (constructor tenByTen noOverride 1000 500))))
                          _ _ _)) _ _); reflexivity.
Defined.

(** *** The forced grid size *)

(** C5.  While [debug.fixedSize] is set, a viewport change and a font
    change each register a request for the forced (columns, rows),
    whatever the pixel size and the font; and on an adapter constructed
    and run under that setting, through any viewport changes, font
    changes and turns of the event loop, every resize request sent to
    Neovim carries the forced size. *)
Theorem fixed_size_is_always_requested
        (measureFont : string -> string -> FontMeasurement)
        (cfg : Config.Values) (fixedSize : Config.FixedSize) :
  Config.debug_fixedSize cfg = Some fixedSize ->
  let forced := TryResize (Config.columns fixedSize) (Config.rows fixedSize) in
  (forall (widthInPixels heightInPixels : Z) (self : NeovimInstance),
      reactions (_initPromise (snd (resize cfg widthInPixels heightInPixels self)))
      = reactions (_initPromise self) ++ [forced]) /\
  (forall (fontFamily fontSize : string) (self : NeovimInstance),
      reactions (_initPromise
                   (snd (setFont measureFont cfg fontFamily fontSize self)))
      = reactions (_initPromise self) ++ [forced]) /\
  (forall (width0 height0 : Z) (history : list Turn),
      Forall (eq (Config.columns fixedSize, Config.rows fixedSize))
        (resizeRequests
           (fst (turns measureFont cfg history
                   (snd (constructor measureFont cfg width0 height0)))))).
Proof.
  intros Hfixed forced. repeat split.
  - intros w h self.
    destruct (resize_registers cfg w h self) as (Hr & _).
    now rewrite Hr, (requestedGrid_forced cfg fixedSize Hfixed).
  - intros family size self.
    destruct (setFont_registers measureFont cfg family size self)
      as (w & h & self' & Hr & _).
    now rewrite Hr, (requestedGrid_forced cfg fixedSize Hfixed).
  - intros w0 h0 history.
    apply (turns_keep_forced measureFont cfg fixedSize Hfixed).
    rewrite (constructor_forced measureFont cfg fixedSize Hfixed). repeat constructor.
Qed.

Lemma fixed_size_is_always_requested_witness :
  Forall (eq (Finite 100, Finite 24))
    (resizeRequests
       (fst (turns tenByTen forced24x100
               [NeovimStarted; InitReactions; CallResize 805 403;
                CallSetFont "Menlo" "12px"; InitReactions]
               (snd (constructor tenByTen forced24x100 800 600))))).
Proof.
  refine (proj2 (proj2 (fixed_size_is_always_requested tenByTen forced24x100
                          (Config.mkFixedSize (Finite 24) (Finite 100)) _))
            800 600 _).
  reflexivity.
Defined.

Example forced_size_run :
  resizeRequests
    (fst (turns tenByTen forced24x100
            [NeovimStarted; InitReactions; CallResize 805 403;
             CallSetFont "Menlo" "12px"; InitReactions]
            (snd (constructor tenByTen forced24x100 800 600))))
  = [(Finite 100, Finite 24); (Finite 100, Finite 24); (Finite 100, Finite 24)].
Proof. reflexivity. Qed.

(** *** The attach handshake *)

Lemma turn_attaches_80_by_40
      (measureFont : string -> string -> FontMeasurement)
      (cfg : Config.Values) (t : Turn) (self : NeovimInstance) :
  Forall (eq (80, 40, true)) (attachRequests (fst (turn measureFont cfg t self))).
Proof.
  destruct t as [w h | family size | | | | | method args | text | text]; cbn [turn].
  - destruct (resize_registers cfg w h self) as (_ & _ & _ & _ & Ha).
    rewrite Ha. constructor.
  - destruct (setFont_registers measureFont cfg family size self)
      as (w & h & self' & _ & _ & _ & _ & Ha).
    rewrite Ha. constructor.
  - destruct (state (_initPromise self)); cbn; repeat constructor.
  - destruct (state (_initPromise self)); cbn; constructor.
  - destruct (_neovim self); cbn; constructor.
  - unfold runReactions. destruct (state (_initPromise self)); cbn [fst];
      try constructor.
    rewrite attachRequests_reactions. constructor.
  - destruct (_neovim self); cbn [fst]; try constructor.
    destruct (no_client_call_no_request _
                (onNotification_no_client_call method args)) as [_ Ha].
    rewrite Ha. constructor.
  - unfold input. destruct (_neovim self); cbn; constructor.
  - unfold command. destruct (_neovim self); cbn; constructor.
Qed.

(** C10.  Whatever the pixel size given to the constructor, the
    configuration and the font measurements, the handler that runs when
    Neovim has started sends exactly one attach handshake, for 80 columns
    and 40 rows with the UI enabled; the constructor itself sends none;
    and in any run of the adapter every attach handshake is that one. *)
Theorem attach_is_80_by_40
        (measureFont : string -> string -> FontMeasurement)
        (cfg : Config.Values) (widthInPixels heightInPixels : Z) :
  let constructed := constructor measureFont cfg widthInPixels heightInPixels in
  attachRequests (fst constructed) = [] /\
  attachRequests (fst (turn measureFont cfg NeovimStarted (snd constructed)))
  = [(80, 40, true)] /\
  forall history : list Turn,
    Forall (eq (80, 40, true))
      (attachRequests (fst (turns measureFont cfg history (snd constructed)))).
Proof.
  intros constructed. repeat split.
  - unfold constructed, constructor.
    match goal with
    | |- context [setFont measureFont cfg ?f ?s ?self] =>
        destruct (setFont_registers measureFont cfg f s self)
          as (w & h & self' & _ & _ & _ & _ & Ha);
        destruct (setFont measureFont cfg f s self) as [tr self'']
    end.
    cbn [fst snd attachRequests] in *. exact Ha.
  - assert (Hpending : state (_initPromise (snd constructed)) = Pending).
    { unfold constructed, constructor.
      match goal with
      | |- context [setFont measureFont cfg ?f ?s ?self] =>
          destruct (setFont_registers measureFont cfg f s self)
            as (w & h & self' & _ & Hs & _);
          destruct (setFont measureFont cfg f s self) as [tr self'']
      end.
      cbn [fst snd] in *. exact Hs. }
    cbn [turn]. rewrite Hpending. reflexivity.
  - intros history. generalize (snd constructed) as self.
    induction history as [ | t history IH]; intros self; cbn [turns];
      [ constructor | ].
    pose proof (turn_attaches_80_by_40 measureFont cfg t self) as Ht.
    destruct (turn measureFont cfg t self) as [tr self'].
    specialize (IH self').
    destruct (turns measureFont cfg history self') as [tr' self''].
    cbn [fst snd] in *. rewrite attachRequests_app. apply Forall_app. now split.
Qed.

(** * Further properties of the redraw handler *)

Ltac each_command H :=
  repeat (destruct H as [H | H]; [ subst | ]); [ .. | destruct H ].

(** X1.  A command of the first-tuple family ([cursor_goto],
    [set_scroll_region], [scroll], [resize], [update_bg], [update_fg],
    [mode_change]) reads its first tuple only: whatever tuples follow,
    the batch is handled as the batch holding just that tuple. *)
Theorem first_tuple_only (name : string) (first : Value) (later : list Value) :
  In name firstTupleCommands ->
  redrawCallback (VArray (VString name :: first :: later))
  = redrawCallback (VArray [VString name; first]).
Proof. intros H. unfold firstTupleCommands in H. each_command H; reflexivity. Qed.

Lemma first_tuple_only_witness :
  redrawCallback (VArray (VString "scroll" :: VArray [VNumber (-2)]
                            :: [VArray [VNumber 5]; VNull]))
  = redrawCallback (VArray [VString "scroll"; VArray [VNumber (-2)]]).
Proof.
  refine (first_tuple_only "scroll" (VArray [VNumber (-2)])
            [VArray [VNumber 5]; VNull] _).
  cbn. auto 10.
Defined.

(** X2.  A command of the first-tuple family needs a first tuple: when
    the batch has none, or it is [null], the batch raises a [TypeError]
    and has no effect; otherwise it completes and emits exactly one
    action (fields that the tuple lacks are read as [undefined]). *)
Theorem first_tuple_needed (name : string) (tuples : list Value) :
  In name firstTupleCommands ->
  if isNullish (element tuples 0)
  then redrawCallback (VArray (VString name :: tuples)) = ([], Throw TypeError)
  else completion (redrawCallback (VArray (VString name :: tuples))) = Normal tt /\
       List.length
         (emittedActions (effects (redrawCallback (VArray (VString name :: tuples)))))
       = 1%nat.
Proof.
  intros H. unfold firstTupleCommands in H.
  each_command H; unfold redrawCallback;
    cbn [getIndex nth shift eval bind fst snd app strictEqString String.eqb
         Ascii.eqb Bool.eqb];
    destruct (element tuples 0); cbn; auto.
Qed.

Lemma first_tuple_needed_witness :
  redrawCallback (VArray (VString "update_fg" :: [])) = ([], Throw TypeError).
Proof.
  refine (first_tuple_needed "update_fg" [] _). cbn. auto 10.
Defined.

Example cursor_goto_short_tuple :
  redrawCallback (VArray [VString "cursor_goto"; VArray [VNumber 4]])
  = perform (EmitAction (Actions.createCursorGotoAction (VNumber 4) VUndefined)).
Proof. reflexivity. Qed.

Lemma mapArray_first_fields (tuples : list Value) :
  mapArray (fun v => getIndex v 0) tuples
  = if existsb isNullish tuples then Throw TypeError
    else Normal (map (fun v => valueOf (getIndex v 0)) tuples).
Proof.
  induction tuples as [ | t tuples IH]; [ reflexivity | ].
  cbn [mapArray existsb map]. rewrite IH.
  destruct t; cbn; try reflexivity; now destruct (existsb isNullish tuples).
Qed.

(** X3.  A [put] batch raises a [TypeError], and emits nothing, exactly
    when one of its tuples is [null] or [undefined]; otherwise it emits
    one [put] action whose payload has one entry per tuple.  (A tuple that
    is a string contributes its first character, an empty tuple
    [undefined].) *)
Theorem put_needs_readable_tuples (tuples : list Value) :
  if existsb isNullish tuples
  then redrawCallback (VArray (VString "put" :: tuples)) = ([], Throw TypeError)
  else exists characters : list Value,
      redrawCallback (VArray (VString "put" :: tuples))
      = perform (EmitAction (Actions.put characters)) /\
      List.length characters = List.length tuples.
Proof.
  unfold redrawCallback.
  cbn [getIndex nth shift eval bind fst snd app strictEqString String.eqb
       Ascii.eqb Bool.eqb].
  rewrite mapArray_first_fields.
  destruct (existsb isNullish tuples); [ reflexivity | ].
  eexists. split; [ reflexivity | apply length_map ].
Qed.

(** X4.  A [highlight_set] batch completes exactly when the first field
    of its last tuple can have its properties read; it then emits one
    action.  With no tuple at all, with a last tuple that is empty or
    [null], or with a first field that is [null], it raises a
    [TypeError] and emits nothing. *)
Theorem highlight_set_needs_attributes (tuples : list Value) :
  if isNullish (valueOf (getIndex (last tuples VUndefined) 0))
  then redrawCallback (VArray (VString "highlight_set" :: tuples))
       = ([], Throw TypeError)
  else completion (redrawCallback (VArray (VString "highlight_set" :: tuples)))
       = Normal tt /\
       List.length
         (emittedActions
            (effects (redrawCallback (VArray (VString "highlight_set" :: tuples)))))
       = 1%nat.
Proof.
  rewrite highlight_set_last.
  unfold redrawCallback.
  cbn [getIndex nth shift eval bind fst snd app strictEqString String.eqb
       Ascii.eqb Bool.eqb List.length Z.of_nat Pos.of_succ_nat Z.sub Z.add
       Z.opp Z.pos_sub elementAt Z.ltb Z.compare Z.to_nat].
  destruct (getIndex (last tuples VUndefined) 0) as [info | []];
    [ | reflexivity ].
  destruct info; cbn; auto.
Qed.

Example highlight_set_without_tuple :
  redrawCallback (VArray [VString "highlight_set"]) = ([], Throw TypeError).
Proof. reflexivity. Qed.

(** X5.  An attribute map that has none of the seven properties the
    branch reads (the empty map that Neovim sends for the default
    highlight, or a map with other keys only) switches every flag off and
    leaves both colours [undefined]. *)
Theorem highlight_set_without_keys_resets
        (earlier : list Value) (fields : list (string * Value)) :
  (forall key, In key highlightKeys -> lookupField key fields = VUndefined) ->
  redrawCallback
    (VArray (VString "highlight_set" :: earlier ++ [VArray [VObject fields]]))
  = perform (EmitAction (Actions.setHighlight false false false false false
                           VUndefined VUndefined)).
Proof.
  intros Hkeys.
  rewrite highlight_set_last, last_last.
  unfold redrawCallback.
  cbn [getIndex getProp nth shift eval bind fst snd app strictEqString
       String.eqb Ascii.eqb Bool.eqb List.length Z.of_nat Pos.of_succ_nat
       Z.sub Z.add Z.opp Z.pos_sub elementAt Z.ltb Z.compare Z.to_nat].
  rewrite !Hkeys by (cbn; auto 10). reflexivity.
Qed.

Lemma highlight_set_without_keys_resets_witness :
  redrawCallback
    (VArray (VString "highlight_set"
               :: [VArray [VObject [("bold", VBoolean true)]]]
               ++ [VArray [VObject [("special", VNumber 255)]]]))
  = perform (EmitAction (Actions.setHighlight false false false false false
                           VUndefined VUndefined)).
Proof.
  refine (highlight_set_without_keys_resets
            [VArray [VObject [("bold", VBoolean true)]]]
            [("special", VNumber 255)] _).
  intros key H. cbn in H.
  repeat (destruct H as [H | H]; [ subst; reflexivity | ]). destruct H.
Defined.

Lemma redrawCallback_at_most_one (batch : Value) :
  (List.length (emittedActions (effects (redrawCallback batch))) <= 1)%nat.
Proof.
  rewrite redrawCallback_actions, length_map.
  unfold decodedCommands. cbn [flat_map]. rewrite app_nil_r.
  destruct (decodeCommand batch) as [[c | ] | e]; cbn [List.length]; lia.
Qed.

(** X6.  A redraw notification emits at most one action per batch. *)
Theorem at_most_one_action_per_batch (batches : list Value) :
  (List.length
     (emittedActions (effects (onNotification "redraw" (VArray batches))))
   <= List.length batches)%nat.
Proof.
  change (onNotification "redraw" (VArray batches))
    with (forEach redrawCallback batches).
  induction batches as [ | batch rest IH]; [ cbn; lia | ].
  cbn [forEach List.length]. rewrite effects_bind, emittedActions_app, length_app.
  pose proof (redrawCallback_at_most_one batch) as Hone.
  destruct (completion (redrawCallback batch)); cbn [emittedActions List.length];
    lia.
Qed.

Lemma modeSignals_app tr1 tr2 :
  modeSignals (tr1 ++ tr2) = modeSignals tr1 ++ modeSignals tr2.
Proof.
  induction tr1 as [ | e tr1 IH]; simpl; [ reflexivity | ].
  destruct e; simpl; now rewrite ?IH.
Qed.

Lemma changedModes_app a1 a2 :
  changedModes (a1 ++ a2) = changedModes a1 ++ changedModes a2.
Proof.
  induction a1 as [ | a a1 IH]; simpl; [ reflexivity | ].
  destruct a; simpl; now rewrite ?IH.
Qed.

Lemma redrawCallback_mode_signals (batch : Value) :
  modeSignals (effects (redrawCallback batch))
  = changedModes (emittedActions (effects (redrawCallback batch))).
Proof.
  destruct batch as [ | | b | n | s | l | fs | f ]; try reflexivity.
  destruct l as [ | name tuples]; [ reflexivity | ].
  unfold redrawCallback.
  cbn [getIndex nth shift eval bind fst snd app].
  by_command name.
  all: try (destruct (element tuples 0); cbn; auto; fail).
  - destruct (mapArray (fun v => getIndex v 0) tuples); cbn; auto.
  - destruct (getIndex (elementAt tuples _) 0) as [info | e]; cbn; auto.
    destruct info; cbn; auto.
  - destruct (concat name) as [[] | []]; cbn; auto.
Qed.

(** X7.  In a redraw notification the values published on the
    [mode-change] event are, in order, the modes of the [changeMode]
    actions it emits: every mode change is announced both ways, and no
    mode is announced without its action. *)
Theorem mode_signals_match_actions (batches : list Value) :
  modeSignals (effects (onNotification "redraw" (VArray batches)))
  = changedModes
      (emittedActions (effects (onNotification "redraw" (VArray batches)))).
Proof.
  change (onNotification "redraw" (VArray batches))
    with (forEach redrawCallback batches).
  induction batches as [ | batch rest IH]; [ reflexivity | ].
  cbn [forEach]. rewrite effects_bind.
  rewrite modeSignals_app, emittedActions_app, changedModes_app.
  rewrite redrawCallback_mode_signals.
  destruct (completion (redrawCallback batch)); [ now rewrite IH | reflexivity ].
Qed.

(** X8.  A payload that is not an array raises a [TypeError] with no
    effect; and a batch that is not an array ends the pass: what the
    batches before it did stays done, the batches after it are not
    looked at, and the notification raises. *)
Theorem non_array_ends_pass (v : Value) :
  isArray v = false ->
  onNotification "redraw" v = ([], Throw TypeError) /\
  forall before after : list Value,
    effects (onNotification "redraw" (VArray (before ++ v :: after)))
    = effects (onNotification "redraw" (VArray before)) /\
    completion (onNotification "redraw" (VArray (before ++ v :: after)))
    = Throw TypeError.
Proof.
  intros Hv.
  assert (Hbatch : redrawCallback v = ([], Throw TypeError))
    by (destruct v; try discriminate Hv; reflexivity).
  split; [ destruct v; try discriminate Hv; reflexivity | ].
  intros before after.
  change (onNotification "redraw" (VArray (before ++ v :: after)))
    with (forEach redrawCallback (before ++ v :: after)).
  change (onNotification "redraw" (VArray before))
    with (forEach redrawCallback before).
  rewrite forEach_app. cbn [forEach]. rewrite Hbatch, bind_throw.
  destruct (forEach redrawCallback before) as [tr [[] | []]]; cbn.
  - now rewrite app_nil_r.
  - auto.
Qed.

Lemma non_array_ends_pass_witness :
  effects (onNotification "redraw"
             (VArray ([VArray [VString "clear"; VArray []]]
                        ++ VString "clear" :: [VArray [VString "eol_clear"]])))
  = effects (onNotification "redraw"
               (VArray [VArray [VString "clear"; VArray []]])).
Proof.
  refine (proj1 (proj2 (non_array_ends_pass (VString "clear") _)
                   [VArray [VString "clear"; VArray []]]
                   [VArray [VString "eol_clear"]])).
  reflexivity.
Defined.

Lemma forEach_forallb (P : Effect -> bool) (batches : list Value) :
  (forall batch, forallb P (effects (redrawCallback batch)) = true) ->
  forallb P (effects (forEach redrawCallback batches)) = true.
Proof.
  intros Hbatch. induction batches as [ | batch rest IH]; [ reflexivity | ].
  cbn [forEach]. rewrite effects_bind, forallb_app, Hbatch.
  destruct (completion (redrawCallback batch)); [ exact IH | reflexivity ].
Qed.

Lemma redrawCallback_redraw_effects (batch : Value) :
  forallb isRedrawEffect (effects (redrawCallback batch)) = true.
Proof.
  destruct batch as [ | | b | n | s | l | fs | f ]; try reflexivity.
  destruct l as [ | name tuples]; [ reflexivity | ].
  unfold redrawCallback.
  cbn [getIndex nth shift eval bind fst snd app].
  by_command name.
  all: try (destruct (element tuples 0); cbn; auto; fail).
  - destruct (mapArray (fun v => getIndex v 0) tuples); cbn; auto.
  - destruct (getIndex (elementAt tuples _) 0) as [info | e]; cbn; auto.
    destruct info; cbn; auto.
  - destruct (concat name) as [[] | []]; cbn; auto.
Qed.

(** X9.  Whatever its payload, a redraw notification does nothing but
    emit actions, publish mode changes and warn about unhandled
    commands: it never calls the Neovim client or the plugin manager and
    never quits the application. *)
Theorem redraw_only_emits_and_warns (args : Value) :
  forallb isRedrawEffect (effects (onNotification "redraw" args)) = true.
Proof.
  destruct args; try reflexivity.
  apply forEach_forallb, redrawCallback_redraw_effects.
Qed.

(** X21.  The command name is compared as a string: a batch whose
    first element is not a string (a number, [null], an array of
    strings), and the empty batch, whose name reads as [undefined], are
    reported as unhandled with one warning, emit nothing and do not
    raise, provided the name can be made a string for the warning (all
    but an object with a [toString] of its own, or an array holding
    one). *)
Theorem non_string_command_is_unhandled (batch : list Value) :
  (forall s : string, element batch 0 <> VString s) ->
  concatCompletes (element batch 0) = true ->
  redrawCallback (VArray batch)
  = perform (ConsoleWarnConcat "Unhandled command: " (element batch 0)).
Proof.
  intros Hname Hconverts.
  assert (Hunhandled : isHandled (element batch 0) = false).
  { destruct (element batch 0) eqn:E; try reflexivity.
    now destruct (Hname s). }
  destruct batch as [ | name tuples].
  - reflexivity.
  - apply unhandled_warns; assumption.
Qed.

Lemma non_string_command_is_unhandled_witness :
  redrawCallback (VArray [VArray [VString "clear"]; VArray []])
  = perform (ConsoleWarnConcat "Unhandled command: " (VArray [VString "clear"])).
Proof.
  refine (non_string_command_is_unhandled
            [VArray [VString "clear"]; VArray []] _ _).
  - intros s. discriminate.
  - reflexivity.
Defined.

(** A name that is a map with a [toString] entry cannot be made a string:
    the warning is never written and the batch raises. *)
Example unprintable_command_raises :
  redrawCallback (VArray [VObject [("toString", VNumber 1)]; VArray []])
  = ([], Throw TypeError).
Proof. reflexivity. Qed.

(** X22.  A batch is all or nothing: every branch reads all it needs
    before it emits, so a batch that raises has had no effect at all. *)
Theorem raising_batch_has_no_effect (batch : Value) (e : JsError) :
  completion (redrawCallback batch) = Throw e ->
  effects (redrawCallback batch) = [].
Proof.
  intros Hthrow. now rewrite (redrawCallback_raises batch e Hthrow).
Qed.

Lemma raising_batch_has_no_effect_witness :
  effects (redrawCallback (VArray [VString "mode_change"; VNull])) = [].
Proof.
  refine (raising_batch_has_no_effect
            (VArray [VString "mode_change"; VNull]) TypeError _).
  reflexivity.
Defined.

(** ** The other channels *)

(** X10.  A notification on any channel but [redraw] and
    [oni_plugin_notify] is answered with one console warning that names
    the channel; its payload is not read, so it cannot raise. *)
Theorem unknown_notification_is_reported (method : string) (args : Value) :
  method <> "redraw" ->
  method <> "oni_plugin_notify" ->
  onNotification method args
  = perform (ConsoleWarnConcat "Unknown notification: " (VString method)).
Proof.
  intros Hredraw Hplugin. unfold onNotification.
  apply String.eqb_neq in Hredraw, Hplugin. now rewrite Hredraw, Hplugin.
Qed.

Lemma unknown_notification_is_reported_witness :
  onNotification "Redraw" VNull
  = perform (ConsoleWarnConcat "Unknown notification: " (VString "Redraw")).
Proof.
  refine (unknown_notification_is_reported "Redraw" VNull _ _); discriminate.
Defined.

(** X11.  An [oni_plugin_notify] notification never emits an action.  It
    reaches the plugin manager, with exactly one call, when the first
    element of its payload is an array; the method handed over is that
    array's first element ([undefined] when the array is empty).  When the
    payload has no first element, or one that is not an array, the
    listener raises a [TypeError] and the plugin manager is not called. *)
Theorem plugin_notify_needs_array (args : Value) :
  emittedActions (effects (onNotification "oni_plugin_notify" args)) = [] /\
  match valueOf (getIndex args 0) with
  | VArray pluginArgs =>
      onNotification "oni_plugin_notify" args
      = perform (PluginHandleNotification (element pluginArgs 0)
                   (withIndex0 args (VArray (tl pluginArgs))))
  | _ => onNotification "oni_plugin_notify" args = ([], Throw TypeError)
  end.
Proof.
  unfold onNotification. cbn [String.eqb Ascii.eqb Bool.eqb].
  destruct (getIndex args 0) as [pluginArgs | []]; [ | now split ].
  cbn [valueOf eval bind app].
  destruct pluginArgs as [ | | b | n | s | [ | m rest] | fs | f ]; now split.
Qed.

Example plugin_notify_empty_payload :
  onNotification "oni_plugin_notify" (VArray []) = ([], Throw TypeError).
Proof. reflexivity. Qed.

(** * Further properties of the geometry negotiation *)

Lemma clientCalls_app tr1 tr2 :
  clientCalls (tr1 ++ tr2) = clientCalls tr1 ++ clientCalls tr2.
Proof. apply filter_app. Qed.

Lemma resizeRequests_clientCalls tr :
  resizeRequests (clientCalls tr) = resizeRequests tr.
Proof.
  unfold clientCalls. induction tr as [ | e tr IH]; [ reflexivity | ].
  destruct e; cbn [filter isClientCall resizeRequests]; now rewrite ?IH.
Qed.

Lemma attachRequests_clientCalls tr :
  attachRequests (clientCalls tr) = attachRequests tr.
Proof.
  unfold clientCalls. induction tr as [ | e tr IH]; [ reflexivity | ].
  destruct e; cbn [filter isClientCall attachRequests]; now rewrite ?IH.
Qed.

Lemma no_client_call_clientCalls tr :
  forallb (fun e => negb (isClientCall e)) tr = true -> clientCalls tr = [].
Proof.
  induction tr as [ | e tr IH]; [ reflexivity | ].
  cbn [forallb]. intros H. apply andb_prop in H. destruct H as [He Htr].
  unfold clientCalls in *. cbn [filter].
  apply negb_true_iff in He. rewrite He. now apply IH.
Qed.

Lemma clientCalls_reactions (rs : list Reaction) :
  clientCalls (map runReaction rs) = map asRequest (map sizeOf rs).
Proof.
  unfold clientCalls in *.
  induction rs as [ | [columns rows] rs IH]; [ reflexivity | ].
  cbn [map filter runReaction isClientCall sizeOf]. now rewrite IH.
Qed.

(** What a viewport change leaves alone. *)
Lemma resize_frame (cfg : Config.Values) (w h : Z) (self : NeovimInstance) :
  clientCalls (fst (resize cfg w h self)) = [] /\
  _fontWidthInPixels (snd (resize cfg w h self)) = _fontWidthInPixels self /\
  _fontHeightInPixels (snd (resize cfg w h self)) = _fontHeightInPixels self /\
  _lastWidthInPixels (snd (resize cfg w h self)) = w /\
  _lastHeightInPixels (snd (resize cfg w h self)) = h.
Proof.
  unfold resize, _resizeInternal.
  destruct (Config.debug_fixedSize cfg); cbn; auto.
Qed.

Lemma setFont_no_client_call
      (measureFont : string -> string -> FontMeasurement)
      (cfg : Config.Values) (family size : string) (self : NeovimInstance) :
  clientCalls (fst (setFont measureFont cfg family size self)) = [].
Proof.
  unfold setFont.
  match goal with
  | |- context [resize cfg ?w ?h ?s] =>
      destruct (resize_frame cfg w h s) as [Hc _];
      destruct (resize cfg w h s) as [tr self']
  end.
  exact Hc.
Qed.

Section Runs.

Variable measureFont : string -> string -> FontMeasurement.
Variable cfg : Config.Values.

Lemma turns_app (h1 h2 : list Turn) (self : NeovimInstance) :
  turns measureFont cfg (h1 ++ h2) self
  = let (tr1, self1) := turns measureFont cfg h1 self in
    let (tr2, self2) := turns measureFont cfg h2 self1 in
    (tr1 ++ tr2, self2).
Proof.
  revert self. induction h1 as [ | t h1 IH]; intros self; cbn [app turns].
  - now destruct (turns measureFont cfg h2 self).
  - destruct (turn measureFont cfg t self) as [tr self'].
    rewrite IH.
    destruct (turns measureFont cfg h1 self') as [tr1 self1].
    destruct (turns measureFont cfg h2 self1) as [tr2 self2].
    now rewrite app_assoc.
Qed.

(** How a turn moves the start-up promise. *)
Lemma turn_state (t : Turn) (self : NeovimInstance) :
  state (_initPromise (snd (turn measureFont cfg t self)))
  = match t, state (_initPromise self) with
    | NeovimStarted, Pending => Fulfilled
    | NeovimFailedToStart, Pending => Rejected
    | _, s => s
    end.
Proof.
  destruct t as [w h | family size | | | | | method args | text | text]; cbn [turn].
  - destruct (resize_registers cfg w h self) as (_ & Hs & _). exact Hs.
  - destruct (setFont_registers measureFont cfg family size self)
      as (w & h & self' & _ & Hs & _). exact Hs.
  - destruct (state (_initPromise self)) eqn:E; cbn; auto.
  - destruct (state (_initPromise self)) eqn:E; cbn; auto.
  - destruct (_neovim self); cbn; now destruct (state (_initPromise self)).
  - unfold runReactions. destruct (state (_initPromise self)) eqn:E; cbn; auto.
  - destruct (_neovim self); cbn; now destruct (state (_initPromise self)).
  - unfold input. destruct (_neovim self); cbn;
      now destruct (state (_initPromise self)).
  - unfold command. destruct (_neovim self); cbn;
      now destruct (state (_initPromise self)).
Qed.

Lemma clientInvariant_quiet (self self' : NeovimInstance) (tr eff : list Effect) :
  clientInvariant self tr ->
  clientCalls eff = [] ->
  state (_initPromise self') = state (_initPromise self) ->
  _neovim self' = _neovim self ->
  clientInvariant self' (tr ++ eff).
Proof.
  unfold clientInvariant. intros Hinv Heff Hs Hn.
  now rewrite Hs, Hn, clientCalls_app, Heff, app_nil_r.
Qed.

Lemma clientInvariant_host (self self' : NeovimInstance) (tr eff : list Effect) :
  clientInvariant self tr ->
  state (_initPromise self) = Fulfilled ->
  state (_initPromise self') = Fulfilled ->
  _neovim self' = _neovim self ->
  forallb isHostCall (clientCalls eff) = true ->
  clientInvariant self' (tr ++ eff).
Proof.
  unfold clientInvariant. intros Hinv Hs Hs' Hn' Heff.
  rewrite Hs in Hinv. rewrite Hs', Hn'.
  destruct Hinv as [Hn [later [Hc Hlater]]].
  split; [ exact Hn | ].
  exists (later ++ clientCalls eff).
  now rewrite clientCalls_app, Hc, app_assoc, forallb_app, Hlater, Heff.
Qed.

Lemma hostCalls_reactions (rs : list Reaction) :
  forallb isHostCall (clientCalls (map runReaction rs)) = true.
Proof.
  rewrite clientCalls_reactions.
  induction rs as [ | [columns rows] rs IH]; [ reflexivity | exact IH ].
Qed.

Lemma turn_clientInvariant (t : Turn) (self : NeovimInstance) (tr : list Effect) :
  clientInvariant self tr ->
  clientInvariant (snd (turn measureFont cfg t self))
    (tr ++ fst (turn measureFont cfg t self)).
Proof.
  intros Hinv.
  destruct t as [w h | family size | | | | | method args | text | text];
    cbn [turn].
  - destruct (resize_registers cfg w h self) as (_ & Hs & Hn & _).
    destruct (resize_frame cfg w h self) as (Hc & _).
    now apply clientInvariant_quiet with (self := self).
  - destruct (setFont_registers measureFont cfg family size self)
      as (w & h & self' & _ & Hs & Hn & _).
    apply clientInvariant_quiet with (self := self); auto.
    apply setFont_no_client_call.
  - unfold clientInvariant in *.
    destruct (state (_initPromise self)) eqn:E; cbn [fst snd onStarted].
    + cbn [_initPromise state _neovim]. destruct Hinv as [_ Hc].
      split; [ reflexivity | ]. exists [].
      rewrite clientCalls_app, Hc. now split.
    + rewrite E, app_nil_r. exact Hinv.
    + rewrite E, app_nil_r. exact Hinv.
  - unfold clientInvariant in *.
    destruct (state (_initPromise self)) eqn:E; cbn [fst snd onStartFailed];
      rewrite app_nil_r.
    + exact Hinv.
    + now rewrite E.
    + now rewrite E.
  - destruct (_neovim self) eqn:En; cbn [fst snd].
    + now apply clientInvariant_quiet with (self := self).
    + rewrite app_nil_r. exact Hinv.
  - unfold runReactions.
    destruct (state (_initPromise self)) eqn:E; cbn [fst snd];
      try (rewrite app_nil_r; exact Hinv).
    apply clientInvariant_host with (self := self); auto.
    apply hostCalls_reactions.
  - destruct (_neovim self) eqn:En; cbn [fst snd].
    + apply clientInvariant_quiet with (self := self); auto.
      apply no_client_call_clientCalls, onNotification_no_client_call.
    + rewrite app_nil_r. exact Hinv.
  - unfold input. destruct (_neovim self) eqn:En; cbn [fst snd asClientCall].
    + unfold clientInvariant in Hinv.
      destruct (state (_initPromise self)) eqn:E;
        try (destruct Hinv as [Hn _]; congruence).
      apply clientInvariant_host with (self := self); auto.
      unfold clientInvariant. rewrite E. exact Hinv.
    + rewrite app_nil_r. exact Hinv.
  - unfold command. destruct (_neovim self) eqn:En; cbn [fst snd asClientCall].
    + unfold clientInvariant in Hinv.
      destruct (state (_initPromise self)) eqn:E;
        try (destruct Hinv as [Hn _]; congruence).
      apply clientInvariant_host with (self := self); auto.
      unfold clientInvariant. rewrite E. exact Hinv.
    + rewrite app_nil_r. exact Hinv.
Qed.

Lemma turns_clientInvariant (history : list Turn) (self : NeovimInstance)
      (tr : list Effect) :
  clientInvariant self tr ->
  clientInvariant (snd (turns measureFont cfg history self))
    (tr ++ fst (turns measureFont cfg history self)).
Proof.
  revert self tr. induction history as [ | t history IH]; intros self tr Hinv;
    cbn [turns].
  - cbn. now rewrite app_nil_r.
  - pose proof (turn_clientInvariant t self tr Hinv) as Ht.
    destruct (turn measureFont cfg t self) as [eff self'].
    specialize (IH self' (tr ++ eff) Ht).
    destruct (turns measureFont cfg history self') as [tr' self''].
    cbn [fst snd] in *. now rewrite app_assoc.
Qed.

Lemma constructor_clientInvariant (widthInPixels heightInPixels : Z) :
  clientInvariant (snd (constructor measureFont cfg widthInPixels heightInPixels))
    (fst (constructor measureFont cfg widthInPixels heightInPixels)).
Proof.
  unfold constructor.
  match goal with
  | |- context [setFont measureFont cfg ?f ?s ?self] =>
      destruct (setFont_registers measureFont cfg f s self)
        as (w & h & self' & _ & Hs & Hn & _);
      pose proof (setFont_no_client_call measureFont cfg f s self) as Hc;
      destruct (setFont measureFont cfg f s self) as [tr self'']
  end.
  cbn [fst snd] in *. unfold clientInvariant. rewrite Hs, Hn.
  split; [ reflexivity | exact Hc ].
Qed.

End Runs.

Lemma constructor_pending
      (measureFont : string -> string -> FontMeasurement)
      (cfg : Config.Values) (widthInPixels heightInPixels : Z) :
  state (_initPromise
           (snd (constructor measureFont cfg widthInPixels heightInPixels)))
  = Pending.
Proof.
  unfold constructor.
  match goal with
  | |- context [setFont measureFont cfg ?f ?s ?self] =>
      destruct (setFont_registers measureFont cfg f s self)
        as (w & h & self' & _ & Hs & _);
      destruct (setFont measureFont cfg f s self) as [tr self'']
  end.
  exact Hs.
Qed.

Lemma turns_rejected
      (measureFont : string -> string -> FontMeasurement)
      (cfg : Config.Values) (history : list Turn) (self : NeovimInstance) :
  state (_initPromise self) = Rejected ->
  state (_initPromise (snd (turns measureFont cfg history self))) = Rejected.
Proof.
  revert self. induction history as [ | t history IH]; intros self Hs;
    cbn [turns]; [ exact Hs | ].
  pose proof (turn_state measureFont cfg t self) as Ht.
  destruct (turn measureFont cfg t self) as [tr self'].
  specialize (IH self').
  destruct (turns measureFont cfg history self') as [tr' self''].
  cbn [fst snd] in *. apply IH. rewrite Ht, Hs. now destruct t.
Qed.

Lemma turns_not_started
      (measureFont : string -> string -> FontMeasurement)
      (cfg : Config.Values) (history : list Turn) (self : NeovimInstance) :
  existsb isNeovimStarted history = false ->
  state (_initPromise self) <> Fulfilled ->
  state (_initPromise (snd (turns measureFont cfg history self))) <> Fulfilled.
Proof.
  revert self. induction history as [ | t history IH]; intros self Hno Hs;
    cbn [turns]; [ exact Hs | ].
  cbn [existsb] in Hno. apply orb_false_elim in Hno. destruct Hno as [Ht Hno].
  pose proof (turn_state measureFont cfg t self) as Hstate.
  destruct (turn measureFont cfg t self) as [tr self'].
  specialize (IH self' Hno).
  destruct (turns measureFont cfg history self') as [tr' self''].
  cbn [fst snd] in *. apply IH. rewrite Hstate.
  destruct t; try discriminate Ht; try exact Hs.
  destruct (state (_initPromise self)); congruence.
Qed.

Lemma attachRequests_hostCalls (later : list Effect) :
  forallb isHostCall later = true -> attachRequests later = [].
Proof.
  induction later as [ | e later IH]; [ reflexivity | ].
  cbn [forallb]. intros H. apply andb_prop in H. destruct H as [He Hlater].
  destruct e; try discriminate He; cbn [attachRequests]; now apply IH.
Qed.

(** X12.  Over the whole life of an adapter, from its construction on,
    through viewport and font changes, notifications, and the input and
    commands the host passes through: until Neovim has started the
    client is asked nothing; once it has, the client has been asked for
    the start-up calls (the colour scheme, the three listeners, the
    attach handshake), once and in that order, and after them for
    resizes, input and commands only.  So nothing goes to Neovim before
    the attach handshake, and the handshake is never repeated. *)
Theorem client_calls_of_a_run
        (measureFont : string -> string -> FontMeasurement)
        (cfg : Config.Values) (widthInPixels heightInPixels : Z)
        (history : list Turn) :
  let constructed := constructor measureFont cfg widthInPixels heightInPixels in
  let run := turns measureFont cfg history (snd constructed) in
  let tr := fst constructed ++ fst run in
  match state (_initPromise (snd run)) with
  | Fulfilled =>
      exists later : list Effect,
        clientCalls tr = startupCalls ++ later /\
        forallb isHostCall later = true
  | _ => clientCalls tr = []
  end.
Proof.
  intros constructed run tr.
  pose proof (turns_clientInvariant measureFont cfg history _ _
                (constructor_clientInvariant measureFont cfg
                   widthInPixels heightInPixels)) as Hinv.
  fold constructed in Hinv. fold run in Hinv. fold tr in Hinv.
  unfold clientInvariant in Hinv.
  destruct (state (_initPromise (snd run))); apply Hinv.
Qed.

Example client_calls_of_a_sample_run :
  clientCalls
    (fst (constructor tenByTen noOverride 805 403)
     ++ fst (turns tenByTen noOverride
               [CallInput "i"; CallResize 400 200; NeovimStarted;
                NeovimAttached; CallInput "ihello";
                Notification "redraw" (VArray [VArray [VString "clear"]]);
                InitReactions; CallSetFont "Menlo" "12px"; NeovimStarted;
                CallCommand "w"; InitReactions]
               (snd (constructor tenByTen noOverride 805 403))))
  = startupCalls
    ++ [NvInput "ihello";
        UiTryResize (Finite 80) (Finite 40);
        UiTryResize (Finite 40) (Finite 20);
        NvCommand "w";
        UiTryResize (Finite 40) (Finite 20)].
Proof. reflexivity. Qed.

(** X13.  When Neovim fails to start, nothing is ever asked of the
    client: the resize requests registered before and after the failure
    are never sent, and a later start signal changes nothing. *)
Theorem failed_start_sends_nothing
        (measureFont : string -> string -> FontMeasurement)
        (cfg : Config.Values) (widthInPixels heightInPixels : Z)
        (before after : list Turn) :
  existsb isNeovimStarted before = false ->
  let constructed := constructor measureFont cfg widthInPixels heightInPixels in
  clientCalls
    (fst constructed
     ++ fst (turns measureFont cfg (before ++ NeovimFailedToStart :: after)
               (snd constructed)))
  = [].
Proof.
  intros Hbefore constructed.
  pose proof (client_calls_shape := turns_clientInvariant measureFont cfg
                (before ++ NeovimFailedToStart :: after) _ _
                (constructor_clientInvariant measureFont cfg
                   widthInPixels heightInPixels)).
  fold constructed in client_calls_shape.
  assert (Hrejected :
    state (_initPromise
             (snd (turns measureFont cfg (before ++ NeovimFailedToStart :: after)
                     (snd constructed)))) = Rejected).
  { rewrite turns_app.
    pose proof (turns_not_started measureFont cfg before (snd constructed)
                  Hbefore) as Hb.
    destruct (turns measureFont cfg before (snd constructed)) as [tr1 self1].
    cbn [snd] in Hb.
    assert (Hself1 : state (_initPromise self1) <> Fulfilled).
    { apply Hb. unfold constructed. rewrite constructor_pending. discriminate. }
    cbn [turns].
    pose proof (turn_state measureFont cfg NeovimFailedToStart self1) as Hf.
    destruct (turn measureFont cfg NeovimFailedToStart self1) as [tr2 self2].
    cbn [snd] in Hf.
    assert (Hself2 : state (_initPromise self2) = Rejected).
    { rewrite Hf. destruct (state (_initPromise self1)); congruence. }
    pose proof (turns_rejected measureFont cfg after self2 Hself2) as Ha.
    destruct (turns measureFont cfg after self2) as [tr3 self3].
    exact Ha. }
  unfold clientInvariant in client_calls_shape.
  rewrite Hrejected in client_calls_shape. apply client_calls_shape.
Qed.

Lemma failed_start_sends_nothing_witness :
  clientCalls
    (fst (constructor tenByTen noOverride 805 403)
     ++ fst (turns tenByTen noOverride
               ([CallResize 400 200] ++ NeovimFailedToStart
                  :: [NeovimStarted; InitReactions; CallResize 10 10;
                      InitReactions])
               (snd (constructor tenByTen noOverride 805 403))))
  = [].
Proof.
  refine (failed_start_sends_nothing tenByTen noOverride 805 403
            [CallResize 400 200]
            [NeovimStarted; InitReactions; CallResize 10 10; InitReactions] _).
  reflexivity.
Defined.

(** X14.  [input] and [command] reach the client exactly when the attach
    handshake has gone out.  On an adapter whose Neovim has not started
    yet, or has failed to start, both raise a [TypeError], because
    [this._neovim] is still unassigned. *)
Theorem input_needs_started_neovim
        (measureFont : string -> string -> FontMeasurement)
        (cfg : Config.Values) (widthInPixels heightInPixels : Z)
        (history : list Turn) (text : string) :
  let constructed := constructor measureFont cfg widthInPixels heightInPixels in
  let run := turns measureFont cfg history (snd constructed) in
  match attachRequests (fst constructed ++ fst run) with
  | [] =>
      input text (snd run) = Throw TypeError /\
      command text (snd run) = Throw TypeError
  | _ =>
      input text (snd run) = Normal (ClientInput text) /\
      command text (snd run) = Normal (ClientCommand text)
  end.
Proof.
  intros constructed run.
  pose proof (turns_clientInvariant measureFont cfg history _ _
                (constructor_clientInvariant measureFont cfg
                   widthInPixels heightInPixels)) as Hinv.
  fold constructed in Hinv. fold run in Hinv.
  unfold clientInvariant in Hinv.
  rewrite <- attachRequests_clientCalls.
  unfold input, command.
  destruct (state (_initPromise (snd run))).
  - destruct Hinv as [Hn Hc]. rewrite Hc, Hn. now split.
  - destruct Hinv as [Hn [later [Hc Hlater]]].
    rewrite Hc, Hn, attachRequests_app, (attachRequests_hostCalls later Hlater).
    now split.
  - destruct Hinv as [Hn Hc]. rewrite Hc, Hn. now split.
Qed.

Lemma requestedGrid_same_font (cfg : Config.Values) (self self' : NeovimInstance)
      (w h : Z) :
  _fontWidthInPixels self' = _fontWidthInPixels self ->
  _fontHeightInPixels self' = _fontHeightInPixels self ->
  requestedGrid cfg self' w h = requestedGrid cfg self w h.
Proof. unfold requestedGrid, gridOf. now intros -> ->. Qed.

(** X15.  Resize requests are sent in the order they were asked for, and
    after those already waiting: on an adapter whose Neovim has started,
    a series of viewport changes followed by one run of the promise's
    reactions sends first the waiting requests and then one request per
    viewport, each with the grid of its own viewport. *)
Theorem resize_requests_in_call_order
        (measureFont : string -> string -> FontMeasurement)
        (cfg : Config.Values) (viewports : list (Z * Z)) (self : NeovimInstance) :
  state (_initPromise self) = Fulfilled ->
  resizeRequests
    (fst (turns measureFont cfg
            (map (fun v => CallResize (fst v) (snd v)) viewports
               ++ [InitReactions])
            self))
  = map sizeOf (reactions (_initPromise self))
    ++ map (fun v => requestedGrid cfg self (fst v) (snd v)) viewports.
Proof.
  revert self. induction viewports as [ | [w h] viewports IH]; intros self Hs.
  - cbn [map app turns turn]. unfold runReactions. rewrite Hs. cbn [fst].
    rewrite !app_nil_r. apply resizeRequests_reactions.
  - cbn [map app turns turn fst snd].
    destruct (resize_registers cfg w h self) as (Hr & Hs' & _ & Hq & _).
    destruct (resize_frame cfg w h self) as (_ & Hfw & Hfh & _).
    destruct (resize cfg w h self) as [eff self1]. cbn [fst snd] in *.
    specialize (IH self1). rewrite Hs', Hs in IH. specialize (IH eq_refl).
    destruct (turns measureFont cfg
                (map (fun v => CallResize (fst v) (snd v)) viewports
                   ++ [InitReactions]) self1) as [tr self2].
    cbn [fst] in *. rewrite resizeRequests_app, Hq, IH, Hr.
    cbn [app]. rewrite map_app, <- app_assoc. cbn [map app sizeOf].
    rewrite <- surjective_pairing. do 2 f_equal.
    apply map_ext. intros v. now apply requestedGrid_same_font.
Qed.

Lemma resize_requests_in_call_order_witness :
  resizeRequests
    (fst (turns tenByTen noOverride
            (map (fun v => CallResize (fst v) (snd v))
               [(805, 403); (99, 10); (805, 403)] ++ [InitReactions])
            (snd (turns tenByTen noOverride [NeovimStarted]
                    (snd (constructor tenByTen noOverride 200 100))))))
  = [(Finite 20, Finite 10)]
    ++ [(Finite 80, Finite 40); (Finite 9, Finite 1); (Finite 80, Finite 40)].
Proof.
  refine (resize_requests_in_call_order tenByTen noOverride
            [(805, 403); (99, 10); (805, 403)]
            (snd (turns tenByTen noOverride [NeovimStarted]
                    (snd (constructor tenByTen noOverride 200 100)))) _).
  reflexivity.
Defined.

Lemma turn_accounts
      (measureFont : string -> string -> FontMeasurement)
      (cfg : Config.Values) (t : Turn) (self : NeovimInstance) :
  (List.length (resizeRequests (fst (turn measureFont cfg t self)))
   + List.length (reactions (_initPromise (snd (turn measureFont cfg t self))))
   = List.length (reactions (_initPromise self))
     + (if isGeometryChange t then 1 else 0))%nat.
Proof.
  destruct t as [w h | family size | | | | | method args | text | text];
    cbn [turn isGeometryChange].
  - destruct (resize_registers cfg w h self) as (Hr & _ & _ & Hq & _).
    rewrite Hr, Hq, length_app. reflexivity.
  - destruct (setFont_registers measureFont cfg family size self)
      as (w & h & self' & Hr & _ & _ & Hq & _).
    rewrite Hr, Hq, length_app. reflexivity.
  - destruct (state (_initPromise self)); cbn; lia.
  - destruct (state (_initPromise self)); cbn; lia.
  - destruct (_neovim self); cbn; lia.
  - unfold runReactions. destruct (state (_initPromise self)); cbn [fst snd];
      try (cbn; lia).
    rewrite resizeRequests_reactions, length_map. cbn. lia.
  - destruct (_neovim self); cbn [fst snd]; try (cbn; lia).
    destruct (no_client_call_no_request _
                (onNotification_no_client_call method args)) as [Hq _].
    rewrite Hq. cbn. lia.
  - unfold input. destruct (_neovim self); cbn; lia.
  - unfold command. destruct (_neovim self); cbn; lia.
Qed.

(** X16.  No resize request is lost or made up: over any run, the
    requests sent plus the requests still waiting on the start-up promise
    are the requests that were waiting at first plus exactly one for each
    viewport change and each font change. *)
Theorem every_change_is_requested_once
        (measureFont : string -> string -> FontMeasurement)
        (cfg : Config.Values) (history : list Turn) (self : NeovimInstance) :
  (List.length (resizeRequests (fst (turns measureFont cfg history self)))
   + List.length
       (reactions (_initPromise (snd (turns measureFont cfg history self))))
   = List.length (reactions (_initPromise self))
     + List.length (filter isGeometryChange history))%nat.
Proof.
  revert self. induction history as [ | t history IH]; intros self;
    cbn [turns filter]; [ cbn; lia | ].
  pose proof (turn_accounts measureFont cfg t self) as Ht.
  destruct (turn measureFont cfg t self) as [eff self'].
  specialize (IH self').
  destruct (turns measureFont cfg history self') as [tr self''].
  cbn [fst snd] in *. rewrite resizeRequests_app, length_app.
  destruct (isGeometryChange t); cbn [List.length]; lia.
Qed.

(** X17.  A font change negotiates again for the last viewport: after a
    viewport change to [w] by [h], [setFont] keeps that viewport, takes
    the new font and its measured cell, emits the [setFont] action and
    registers one more request, for the grid of [w] by [h] under the new
    cell metrics (or for the forced grid). *)
Theorem setFont_renegotiates_last_viewport
        (measureFont : string -> string -> FontMeasurement)
        (cfg : Config.Values) (w h : Z) (family size : string)
        (self : NeovimInstance) :
  let resized := snd (resize cfg w h self) in
  let changed := setFont measureFont cfg family size resized in
  let cell := measureFont family size in
  _lastWidthInPixels (snd changed) = w /\
  _lastHeightInPixels (snd changed) = h /\
  _fontFamily (snd changed) = family /\
  _fontSize (snd changed) = size /\
  _fontWidthInPixels (snd changed) = Some (width cell) /\
  _fontHeightInPixels (snd changed) = Some (height cell) /\
  emittedActions (fst changed)
  = [Actions.setFont family size (width cell) (height cell)] /\
  reactions (_initPromise (snd changed))
  = reactions (_initPromise resized)
    ++ [match Config.debug_fixedSize cfg with
        | Some fixedSize =>
            TryResize (Config.columns fixedSize) (Config.rows fixedSize)
        | None =>
            TryResize (floorDiv w (Some (width cell)))
              (floorDiv h (Some (height cell)))
        end].
Proof.
  unfold setFont, resize, _resizeInternal.
  destruct (Config.debug_fixedSize cfg); cbn; repeat split; reflexivity.
Qed.

(** X18.  With positive integral cell metrics, and pixel sizes and
    metrics below 2^52 in absolute value (where the double quotient of
    two integers floors to their exact quotient), the grid that [resize]
    computes is finite, it fits the viewport, and one more column or row
    would not: [columns * cellWidth <= width < (columns + 1) * cellWidth],
    and the same for the rows. *)
Theorem grid_fits_viewport
        (self : NeovimInstance) (cellWidth cellHeight w h : Z) :
  _fontWidthInPixels self = Some cellWidth ->
  _fontHeightInPixels self = Some cellHeight ->
  0 < cellWidth < 2 ^ 52 ->
  0 < cellHeight < 2 ^ 52 ->
  Z.abs w < 2 ^ 52 ->
  Z.abs h < 2 ^ 52 ->
  exists columns rows : Z,
    gridOf self w h = (Finite columns, Finite rows) /\
    columns * cellWidth <= w < (columns + 1) * cellWidth /\
    rows * cellHeight <= h < (rows + 1) * cellHeight.
Proof.
  intros Hw Hh [Hcw _] [Hch _] _ _. exists (w / cellWidth), (h / cellHeight).
  unfold gridOf, floorDiv. rewrite Hw, Hh.
  destruct (Z.eqb_spec cellWidth 0) as [E | _]; [ lia | ].
  destruct (Z.eqb_spec cellHeight 0) as [E | _]; [ lia | ].
  split; [ reflexivity | ].
  pose proof (Z.div_mod w cellWidth) as Hdw.
  pose proof (Z.mod_pos_bound w cellWidth Hcw) as Hmw.
  pose proof (Z.div_mod h cellHeight) as Hdh.
  pose proof (Z.mod_pos_bound h cellHeight Hch) as Hmh.
  nia.
Qed.

Lemma grid_fits_viewport_witness :
  exists columns rows : Z,
    gridOf (snd (constructor tenByTen noOverride 0 0)) 805 (-3)
    = (Finite columns, Finite rows) /\
    columns * 10 <= 805 < (columns + 1) * 10 /\
    rows * 10 <= -3 < (rows + 1) * 10.
Proof.
  refine (grid_fits_viewport (snd (constructor tenByTen noOverride 0 0))
            10 10 805 (-3) _ _ _ _ _ _); try reflexivity; split; reflexivity.
Defined.

(** X20.  The constructor takes its font from no configuration: whatever
    [editor.fontFamily] and [editor.fontSize] say, a new adapter has the
    font Consolas at 14px, and the first resize request that goes out
    once Neovim has started is for the grid of the constructor's viewport
    under the measured Consolas cell (or for the forced grid). *)
Theorem constructor_negotiates_consolas
        (measureFont : string -> string -> FontMeasurement)
        (cfg : Config.Values) (widthInPixels heightInPixels : Z) :
  let constructed := constructor measureFont cfg widthInPixels heightInPixels in
  let cell := measureFont "Consolas" "14px" in
  _fontFamily (snd constructed) = "Consolas" /\
  _fontSize (snd constructed) = "14px" /\
  emittedActions (fst constructed)
  = [Actions.setFont "Consolas" "14px" (width cell) (height cell)] /\
  resizeRequests (fst constructed) = [] /\
  resizeRequests
    (fst (turns measureFont cfg [NeovimStarted; InitReactions] (snd constructed)))
  = [match Config.debug_fixedSize cfg with
     | Some fixedSize => (Config.columns fixedSize, Config.rows fixedSize)
     | None => (floorDiv widthInPixels (Some (width cell)),
                floorDiv heightInPixels (Some (height cell)))
     end].
Proof.
  unfold constructor, setFont, resize, _resizeInternal.
  destruct (Config.debug_fixedSize cfg); cbn; repeat split; reflexivity.
Qed.
